(** * Recipe backend: the recipe routes, the auth gate and their rules

    A shallow embedding of [src/routes/recipes.js] and
    [src/middleware/auth.js].  Every route handler is an [async] function
    that reads and writes two MongoDB collections, calls the Cloudinary
    uploader, sets [res.status] and either sends a JSON body or throws.
    Handlers are embedded as computations in a state-and-exception monad
    over the collections, the asset store and a log of the external calls
    made, in the order in which the source makes them. *)

From Stdlib Require Import Ascii String QArith_base.
From stdpp Require Import gmap strings list fin_maps pretty.

Local Open Scope string_scope.
Local Open Scope list_scope.

(** ** JavaScript values used by the handlers *)

Module Js.

(** Strings are sequences of code units; the model keeps to code units
    below 256, the range of [ascii]. *)
Definition truthy (s : string) : bool := negb (String.eqb s "").

(** [x || y] on strings: the first operand when it is truthy. *)
Definition or_else (x : option string) (y : string) : string :=
  match x with
  | Some s => if truthy s then s else y
  | None => y
  end.

(** WhiteSpace and LineTerminator code units of ECMAScript that lie below
    256: TAB, LF, VT, FF, CR, SP and NBSP. *)
Definition isWhiteSpace (c : ascii) : bool :=
  let n := nat_of_ascii c in
  (Nat.leb 9 n && Nat.leb n 13) || Nat.eqb n 32 || Nat.eqb n 160.

Fixpoint trimStart_list (l : list ascii) : list ascii :=
  match l with
  | c :: l' => if isWhiteSpace c then trimStart_list l' else l
  | [] => []
  end.

Definition trim_list (l : list ascii) : list ascii :=
  rev (trimStart_list (rev (trimStart_list l))).

(** [String.prototype.trim]. *)
Definition trim (s : string) : string :=
  string_of_list_ascii (trim_list (list_ascii_of_string s)).

(** [s.split(" ")]: the pieces of [s] between single spaces. *)
Fixpoint split_space_aux (cur : string) (s : string) : list string :=
  match s with
  | EmptyString => [String.rev cur]
  | String c s' =>
      if Ascii.eqb c " "%char
      then String.rev cur :: split_space_aux "" s'
      else split_space_aux (String c cur) s'
  end.

Definition split_space (s : string) : list string := split_space_aux "" s.

(** A JSON number of a request body, as a rational. *)
Definition number := Q.

(** [!n] on a number: only zero is falsy. *)
Definition num_falsy (n : number) : bool := Qeq_bool n (0 # 1).
Definition num_lt (a b : number) : bool := negb (Qle_bool b a).
Definition num_gt (a b : number) : bool := num_lt b a.

End Js.

(** ** Documents *)

(** An ObjectId, identified with the hexadecimal string that [toString]
    returns for it. *)
Definition ObjectId := string.
Definition toString (o : ObjectId) : string := o.

(** An asset handle as Cloudinary returns it. *)
Record Photo := mkPhoto {
  public_id : string;
  url : string
}.

(** Modelled from the spec: the Reply sub-document of [models/Recipe.js]
    (section 3: identifier, description, author reference). *)
Record Reply := mkReply {
  reply_id : ObjectId;
  reply_description : string;
  reply_user : ObjectId
}.

(** Modelled from the spec: the Review sub-document of [models/Recipe.js]
    (section 3: identifier, rating, description, author reference, ordered
    sequence of Reply). *)
Record Review := mkReview {
  review_id : ObjectId;
  rating : Js.number;
  description : string;
  user : ObjectId;
  replies : list Reply
}.

(** Modelled from the spec: the Recipe document of [models/Recipe.js]
    (section 3: identifier, title, ingredients, instructions, category,
    cookingTime, photo handle, owner reference, ordered sequence of Review).
    No field is normalised when it is stored. *)
Record Recipe := mkRecipe {
  _id : ObjectId;
  title : string;
  ingredients : list string;
  instructions : string;
  category : string;
  cookingTime : string;
  photo : option Photo;
  createdBy : ObjectId;
  reviews : list Review
}.

(** Modelled from the spec: the User document of [models/User.js]
    (section 3: identifier, username, unique email, password hash, optional
    profile photo handle, favorite recipe identifiers).  [password] is
    [None] on a document loaded with [select("-password")]. *)
Record User := mkUser {
  user_id : ObjectId;
  username : string;
  email : string;
  password : option string;
  profilePhoto : option Photo;
  favorites : list ObjectId
}.

(** [doc.photo?.public_id]: the identifier when the handle is present and
    its identifier is a non-empty string. *)
Definition photo_public_id (p : option Photo) : option string :=
  match p with
  | Some ph => if Js.truthy (public_id ph) then Some (public_id ph) else None
  | None => None
  end.

(** ** Requests and responses *)

Definition Buffer := list Byte.byte.

(** [req.file] as multer's memory storage leaves it. *)
Record File := mkFile {
  originalname : string;
  buffer : Buffer
}.

Record Body := mkBody {
  body_title : option string;
  body_ingredients : option string;
  body_instructions : option string;
  body_category : option string;
  body_cookingTime : option string;
  body_rating : option Js.number;
  body_description : option string
}.

Record Request := mkRequest {
  headers_authorization : option string;
  params_id : string;
  params_reviewId : string;
  query_category : option string;
  body : Body;
  file : option File;
  req_user : option User
}.

(** A recipe as serialised into a response; [isFavorited] is [None] when the
    object has no such field. *)
Record RecipeJson := mkRecipeJson {
  doc : Recipe;
  isFavorited : option bool
}.

Inductive Json : Type :=
| JsonRecipe (r : option RecipeJson)
| JsonRecipes (rs : list RecipeJson)
| JsonMessage (message : string)
| JsonFavorite (message : string) (isFavorited : bool)
| JsonProfile (profilePhoto : option Photo) (message : string).

(** What a handler can throw. *)
Inductive Exn : Type :=
| Error (message : string)
| CloudinaryError (message : string)
| JsonWebTokenError
| CastError
| SyntaxError
| TypeError.

(** ** The world a handler runs in *)

Record UploadResult := mkUploadResult {
  result_public_id : string;
  secure_url : string
}.

(** The asset store as the handlers see it: whether [uploader.destroy]
    rejects for an identifier, and what [uploader.upload_stream] calls back
    with for a folder and a buffer. *)
Record Cloudinary := mkCloudinary {
  destroy_rejects : string -> option string;
  upload_answer : string -> Buffer -> string + UploadResult
}.

(** External calls and collection writes, logged in program order. *)
Inductive Event : Type :=
| CloudDestroy (pid : string)
| CloudUpload (folder : string) (data : Buffer)
| RecipeCreate (r : Recipe)
| RecipeSave (r : Recipe)
| RecipeDelete (id : ObjectId)
| UserSave (u : User)
| UserUpdatePhoto (id : ObjectId) (p : Photo).

Record State := mkState {
  recipes : gmap string Recipe;
  users : gmap string User;
  cloudinary : Cloudinary;
  log : list Event;
  oid_counter : nat;
  statusCode : nat
}.

Definition with_recipes (f : gmap string Recipe -> gmap string Recipe)
    (st : State) : State :=
  mkState (f (recipes st)) (users st) (cloudinary st) (log st)
          (oid_counter st) (statusCode st).

Definition with_users (f : gmap string User -> gmap string User)
    (st : State) : State :=
  mkState (recipes st) (f (users st)) (cloudinary st) (log st)
          (oid_counter st) (statusCode st).

Definition with_event (e : Event) (st : State) : State :=
  mkState (recipes st) (users st) (cloudinary st) (log st ++ [e])
          (oid_counter st) (statusCode st).

Definition with_status (n : nat) (st : State) : State :=
  mkState (recipes st) (users st) (cloudinary st) (log st)
          (oid_counter st) n.

Definition with_next_oid (st : State) : State :=
  mkState (recipes st) (users st) (cloudinary st) (log st)
          (S (oid_counter st)) (statusCode st).

(** ** The handler monad *)

Inductive Result (A : Type) : Type :=
| Returned (a : A)
| Thrown (e : Exn).
Arguments Returned {A} a.
Arguments Thrown {A} e.

Definition M (A : Type) : Type := State -> Result A * State.

Definition ret {A} (a : A) : M A := fun st => (Returned a, st).

Definition bind {A B} (m : M A) (k : A -> M B) : M B :=
  fun st =>
    match m st with
    | (Returned a, st') => k a st'
    | (Thrown e, st') => (Thrown e, st')
    end.

Definition throw {A} (e : Exn) : M A := fun st => (Thrown e, st).

(** [try { m } catch (error) { h error }]. *)
Definition try_catch {A} (m : M A) (h : Exn -> M A) : M A :=
  fun st =>
    match m st with
    | (Returned a, st') => (Returned a, st')
    | (Thrown e, st') => h e st'
    end.

Definition get : M State := fun st => (Returned st, st).
Definition modify (f : State -> State) : M unit :=
  fun st => (Returned tt, f st).

Declare Scope handler_scope.
Delimit Scope handler_scope with handler.
Notation "x <- m ;; k" := (bind m (fun x => k))
  (at level 100, m at next level, k at level 200, right associativity)
  : handler_scope.
Notation "m ;; k" := (bind m (fun _ => k))
  (at level 100, k at level 200, right associativity) : handler_scope.
Local Open Scope handler_scope.

(** [res.status(n)]. *)
Definition res_status (n : nat) : M unit := modify (with_status n).

(** [res.status(n); throw new Error(msg)]. *)
Definition fail {A} (n : nat) (msg : string) : M A :=
  res_status n ;; throw (Error msg).

(** [if (b) { m }] followed by the rest of the handler. *)
Definition when (b : bool) (m : M unit) : M unit :=
  if b then m else ret tt.

(** ** Library functions the handlers call

    Their code is not part of the repository; the handlers are embedded
    over any behaviour of them. *)
Class Platform := {
  (** [mongoose.Types.ObjectId.isValid] and the cast Mongoose applies to an
      identifier given as a string: [None] for a string that is no
      ObjectId. *)
  ObjectId_parse : string -> option ObjectId;
  (** The identifier Mongoose gives the n-th document it creates. *)
  ObjectId_fresh : nat -> ObjectId;
  (** [jwt.verify(token, secret)]: [None] when it throws, else the [id]
      claim of the payload, if it has one. *)
  jwt_verify : string -> option (option string);
  (** [JSON.parse] of the ingredients field, cast to the schema's array of
      strings: [None] when it throws. *)
  JSON_parse : string -> option (list string)
}.

(** How a handler ends: with [res.json(json)] sent under the status set so
    far, or with an exception that [asyncHandler] passes on to Express,
    together with the [res.statusCode] the handler had set when it threw
    (200 when it had set none). *)
Inductive Outcome : Type :=
| Sent (status : nat) (json : Json)
| Failed (status : nat) (e : Exn).

(** One request against a handler: [res.statusCode] starts at 200. *)
Definition serve (h : Request -> M Json) (req : Request) (st : State)
    : Outcome * State :=
  match h req (with_status 200 st) with
  | (Returned b, st') => (Sent (statusCode st') b, st')
  | (Thrown e, st') => (Failed (statusCode st') e, st')
  end.

(** [router.verb(path, mw, handler)]: the middleware runs first and hands
    the request on. *)
Definition via (mw : Request -> M Request) (h : Request -> M Json)
    (req : Request) : M Json :=
  req' <- mw req ;; h req'.

Section Handlers.

Context `{Platform}.

Definition isValid (id : string) : bool :=
  match ObjectId_parse id with Some _ => true | None => false end.

Definition castObjectId (id : string) : M ObjectId :=
  match ObjectId_parse id with
  | Some o => ret o
  | None => throw CastError
  end.

(** *** Collections *)

Definition Recipe_findById (id : ObjectId) : M (option Recipe) :=
  st <- get ;; ret (recipes st !! id).

Definition User_findById (id : ObjectId) : M (option User) :=
  st <- get ;; ret (users st !! id).

(** [Recipe.find(query)] with [query] either empty or a category. *)
Definition Recipe_find (query : option string) : M (list Recipe) :=
  st <- get ;;
  let all := (map_to_list (recipes st)).*2 in
  ret (match query with
       | Some c => List.filter (fun r => String.eqb (category r) c) all
       | None => all
       end).

Definition new_ObjectId : M ObjectId :=
  st <- get ;;
  modify with_next_oid ;;
  ret (ObjectId_fresh (oid_counter st)).

(** [Recipe.create(fields)]: a new document with no reviews. *)
Definition Recipe_create (title : string) (ingredients : list string)
    (instructions category cookingTime : string) (photo : Photo)
    (createdBy : ObjectId) : M Recipe :=
  id <- new_ObjectId ;;
  let recipe := mkRecipe id title ingredients instructions category
                         cookingTime (Some photo) createdBy [] in
  modify (with_event (RecipeCreate recipe)) ;;
  modify (with_recipes (insert id recipe)) ;;
  ret recipe.

(** [recipe.save()] on a loaded document. *)
Definition Recipe_save (recipe : Recipe) : M Recipe :=
  modify (with_event (RecipeSave recipe)) ;;
  modify (with_recipes (insert (_id recipe) recipe)) ;;
  ret recipe.

Definition Recipe_deleteOne (recipe : Recipe) : M unit :=
  modify (with_event (RecipeDelete (_id recipe))) ;;
  modify (with_recipes (delete (_id recipe))).

Definition User_save (u : User) : M User :=
  modify (with_event (UserSave u)) ;;
  modify (with_users (insert (user_id u) u)) ;;
  ret u.

Definition set_profilePhoto (p : Photo) (u : User) : User :=
  mkUser (user_id u) (username u) (email u) (password u) (Some p)
         (favorites u).

Definition without_password (u : User) : User :=
  mkUser (user_id u) (username u) (email u) None (profilePhoto u)
         (favorites u).

(** [User.findByIdAndUpdate(id, { profilePhoto }, { new: true,
    select: "-password" })]. *)
Definition User_findByIdAndUpdate (id : ObjectId) (p : Photo)
    : M (option User) :=
  st <- get ;;
  match users st !! id with
  | Some u =>
      modify (with_event (UserUpdatePhoto id p)) ;;
      modify (with_users (insert id (set_profilePhoto p u))) ;;
      ret (Some (without_password (set_profilePhoto p u)))
  | None => ret None
  end.

(** *** Asset store *)

(** [await cloudinary.uploader.destroy(pid)]: a rejection is thrown. *)
Definition cloudinary_destroy (pid : string) : M unit :=
  modify (with_event (CloudDestroy pid)) ;;
  st <- get ;;
  match destroy_rejects (cloudinary st) pid with
  | Some e => throw (CloudinaryError e)
  | None => ret tt
  end.

(** [await new Promise(...upload_stream(..., callback)...)]: resolves with
    the result or rejects with the error the callback gets. *)
Definition cloudinary_upload (folder : string) (data : Buffer)
    : M UploadResult :=
  modify (with_event (CloudUpload folder data)) ;;
  st <- get ;;
  match upload_answer (cloudinary st) folder data with
  | inl e => throw (CloudinaryError e)
  | inr r => ret r
  end.

Definition photo_of (r : UploadResult) : Photo :=
  mkPhoto (result_public_id r) (secure_url r).

(** [req.user]: reading a property of it throws when it is undefined. *)
Definition the_user (req : Request) : M User :=
  match req_user req with
  | Some u => ret u
  | None => throw TypeError
  end.

Definition truthy_opt (x : option string) : bool :=
  match x with Some s => Js.truthy s | None => false end.

(** MongooseArray [includes]: compares identifiers by their strings. *)
Definition includes (l : list ObjectId) (x : ObjectId) : bool :=
  existsb (fun y => String.eqb (toString x) (toString y)) l.

Definition with_user (u : User) (req : Request) : Request :=
  mkRequest (headers_authorization req) (params_id req)
            (params_reviewId req) (query_category req) (body req)
            (file req) (Some u).

(** *** middleware/auth.js *)

Definition protect (req : Request) : M Request :=
  match headers_authorization req with
  | Some authorization =>
      if Js.truthy authorization && String.prefix "Bearer" authorization
      then
        try_catch
          (match Js.split_space authorization !! 1%nat with
           | None => throw JsonWebTokenError
           | Some token =>
               match jwt_verify token with
               | None => throw JsonWebTokenError
               | Some decoded_id =>
                   when (negb (truthy_opt decoded_id))
                        (fail 401 "Not authorized, invalid token") ;;
                   id <- castObjectId (default "" decoded_id) ;;
                   found <- User_findById id ;;
                   match found with
                   | None => fail 401 "Not authorized, user not found"
                   | Some user => ret (with_user (without_password user) req)
                   end
               end
           end)
          (fun _ => fail 401 "Not authorized, token failed")
      else fail 401 "Not authorized, no token"
  | None => fail 401 "Not authorized, no token"
  end.

(** *** routes/recipes.js: the handlers *)

(** Update user profile photo. *)
Definition updateProfilePhoto (req : Request) : M Json :=
  match file req with
  | None => fail 400 "No file uploaded"
  | Some f =>
      try_catch
        (result <- cloudinary_upload "recipe-app/profiles" (buffer f) ;;
         me <- the_user req ;;
         match photo_public_id (profilePhoto me) with
         | Some pid => cloudinary_destroy pid
         | None => ret tt
         end ;;
         updatedUser <- User_findByIdAndUpdate (user_id me)
                                               (photo_of result) ;;
         match updatedUser with
         | None => throw TypeError
         | Some u =>
             ret (JsonProfile (profilePhoto u)
                              "Profile photo updated successfully")
         end)
        (fun _ => fail 500 "Failed to upload photo to Cloudinary")
  end.

(** Create recipe. *)
Definition createRecipe (req : Request) : M Json :=
  let b := body req in
  when (negb (truthy_opt (body_title b))
        || negb (truthy_opt (body_ingredients b))
        || negb (truthy_opt (body_instructions b))
        || negb (truthy_opt (body_category b))
        || negb (truthy_opt (body_cookingTime b))
        || match file req with Some _ => false | None => true end)
       (fail 400 "Please fill all fields and upload a photo") ;;
  try_catch
    (f <- match file req with
          | Some f => ret f
          | None => throw TypeError
          end ;;
     result <- cloudinary_upload "recipe-app/recipes" (buffer f) ;;
     parsed <- match JSON_parse (default "" (body_ingredients b)) with
               | Some l => ret l
               | None => throw SyntaxError
               end ;;
     me <- the_user req ;;
     recipe <- Recipe_create (default "" (body_title b)) parsed
                             (default "" (body_instructions b))
                             (default "" (body_category b))
                             (default "" (body_cookingTime b))
                             (photo_of result) (user_id me) ;;
     populatedRecipe <- Recipe_findById (_id recipe) ;;
     res_status 201 ;;
     ret (JsonRecipe ((fun r => mkRecipeJson r None) <$> populatedRecipe)))
    (fun _ => fail 500 "Failed to create recipe").

(** Get all recipes. *)
Definition listRecipes (req : Request) : M Json :=
  let query := match query_category req with
               | Some c => if Js.truthy c then Some c else None
               | None => None
               end in
  found <- Recipe_find query ;;
  match req_user req with
  | Some me =>
      user <- User_findById (user_id me) ;;
      match user with
      | None => fail 404 "User not found"
      | Some user =>
          let favoritedRecipeIds := map toString (favorites user) in
          ret (JsonRecipes
                 (map (fun recipe =>
                         mkRecipeJson recipe
                           (Some (existsb (String.eqb (toString (_id recipe)))
                                          favoritedRecipeIds)))
                      found))
      end
  | None => ret (JsonRecipes (map (fun r => mkRecipeJson r None) found))
  end.

(** Get a single recipe. *)
Definition getRecipe (req : Request) : M Json :=
  when (negb (isValid (params_id req))) (fail 400 "Invalid recipe ID") ;;
  id <- castObjectId (params_id req) ;;
  found <- Recipe_findById id ;;
  match found with
  | None => fail 404 "Recipe not found"
  | Some recipe =>
      match req_user req with
      | Some me =>
          user <- User_findById (user_id me) ;;
          match user with
          | None => fail 404 "User not found"
          | Some user =>
              let isFavorited :=
                existsb (fun favId => String.eqb (toString favId)
                                                 (toString (_id recipe)))
                        (favorites user) in
              ret (JsonRecipe (Some (mkRecipeJson recipe (Some isFavorited))))
          end
      | None => ret (JsonRecipe (Some (mkRecipeJson recipe None)))
      end
  end.

(** Update a recipe. *)
Definition updateRecipe (req : Request) : M Json :=
  let b := body req in
  when (negb (isValid (params_id req))) (fail 400 "Invalid recipe ID") ;;
  id <- castObjectId (params_id req) ;;
  found <- Recipe_findById id ;;
  match found with
  | None => fail 404 "Recipe not found"
  | Some recipe =>
      me <- the_user req ;;
      when (negb (String.eqb (toString (createdBy recipe))
                             (toString (user_id me))))
           (fail 401 "Not authorized") ;;
      photo' <- match file req with
                | Some f =>
                    match photo_public_id (photo recipe) with
                    | Some pid => cloudinary_destroy pid
                    | None => ret tt
                    end ;;
                    result <- cloudinary_upload "recipe-app/recipes"
                                                (buffer f) ;;
                    ret (Some (photo_of result))
                | None => ret (photo recipe)
                end ;;
      ingredients' <- (if truthy_opt (body_ingredients b)
                       then match JSON_parse
                                    (default "" (body_ingredients b)) with
                            | Some l => ret l
                            | None => throw SyntaxError
                            end
                       else ret (ingredients recipe)) ;;
      updatedRecipe <-
        Recipe_save
          (mkRecipe (_id recipe)
                    (Js.or_else (body_title b) (title recipe))
                    ingredients'
                    (Js.or_else (body_instructions b) (instructions recipe))
                    (Js.or_else (body_category b) (category recipe))
                    (Js.or_else (body_cookingTime b) (cookingTime recipe))
                    photo'
                    (createdBy recipe)
                    (reviews recipe)) ;;
      populatedRecipe <- Recipe_findById (_id updatedRecipe) ;;
      ret (JsonRecipe ((fun r => mkRecipeJson r None) <$> populatedRecipe))
  end.

(** Delete a recipe. *)
Definition deleteRecipe (req : Request) : M Json :=
  when (negb (isValid (params_id req))) (fail 400 "Invalid recipe ID") ;;
  id <- castObjectId (params_id req) ;;
  found <- Recipe_findById id ;;
  match found with
  | None => fail 404 "Recipe not found"
  | Some recipe =>
      me <- the_user req ;;
      when (negb (String.eqb (toString (createdBy recipe))
                             (toString (user_id me))))
           (fail 401 "Not authorized") ;;
      match photo_public_id (photo recipe) with
      | Some pid => cloudinary_destroy pid
      | None => ret tt
      end ;;
      Recipe_deleteOne recipe ;;
      ret (JsonMessage "Recipe deleted")
  end.

Definition rating_rejected (rating : option Js.number) : bool :=
  match rating with
  | None => true
  | Some n =>
      Js.num_falsy n || Js.num_lt n (1 # 1) || Js.num_gt n (10 # 1)
  end.

(** [!description || description.trim() === ""]. *)
Definition description_rejected (description : option string) : bool :=
  match description with
  | None => true
  | Some d => negb (Js.truthy d) || String.eqb (Js.trim d) ""
  end.

Definition push_review (rv : Review) (recipe : Recipe) : Recipe :=
  mkRecipe (_id recipe) (title recipe) (ingredients recipe)
           (instructions recipe) (category recipe) (cookingTime recipe)
           (photo recipe) (createdBy recipe) (reviews recipe ++ [rv]).

(** Add a review. *)
Definition addReview (req : Request) : M Json :=
  let rating := body_rating (body req) in
  let description := body_description (body req) in
  when (negb (isValid (params_id req))) (fail 400 "Invalid recipe ID") ;;
  id <- castObjectId (params_id req) ;;
  found <- Recipe_findById id ;;
  match found with
  | None => fail 404 "Recipe not found"
  | Some recipe =>
      when (rating_rejected rating)
           (fail 400 "Rating must be between 1 and 10") ;;
      when (description_rejected description)
           (fail 400 "Description is required") ;;
      me <- the_user req ;;
      let alreadyReviewed :=
        existsb (fun review => String.eqb (toString (user review))
                                          (toString (user_id me)))
                (reviews recipe) in
      when alreadyReviewed
           (fail 400 "You have already reviewed this recipe") ;;
      rid <- new_ObjectId ;;
      let review := mkReview rid (default (0 # 1) rating)
                             (default "" description) (user_id me) [] in
      Recipe_save (push_review review recipe) ;;
      updatedRecipe <- Recipe_findById id ;;
      res_status 201 ;;
      ret (JsonRecipe ((fun r => mkRecipeJson r None) <$> updatedRecipe))
  end.

Definition push_reply (rp : Reply) (rv : Review) : Review :=
  mkReview (review_id rv) (rating rv) (description rv) (user rv)
           (replies rv ++ [rp]).

(** The review that [recipe.reviews.id(reviewId)] returns is part of the
    loaded recipe: pushing to its replies changes the first review with
    that identifier in place. *)
Fixpoint push_reply_at (reviewId : ObjectId) (rp : Reply)
    (l : list Review) : list Review :=
  match l with
  | [] => []
  | rv :: l' =>
      if String.eqb (toString (review_id rv)) (toString reviewId)
      then push_reply rp rv :: l'
      else rv :: push_reply_at reviewId rp l'
  end.

Definition reviews_id (reviewId : ObjectId) (l : list Review)
    : option Review :=
  List.find (fun rv => String.eqb (toString (review_id rv))
                                  (toString reviewId)) l.

Definition with_reviews (l : list Review) (recipe : Recipe) : Recipe :=
  mkRecipe (_id recipe) (title recipe) (ingredients recipe)
           (instructions recipe) (category recipe) (cookingTime recipe)
           (photo recipe) (createdBy recipe) l.

(** Add a reply to a review. *)
Definition addReply (req : Request) : M Json :=
  let description := body_description (body req) in
  when (negb (isValid (params_id req))) (fail 400 "Invalid recipe ID") ;;
  when (negb (isValid (params_reviewId req)))
       (fail 400 "Invalid review ID") ;;
  id <- castObjectId (params_id req) ;;
  found <- Recipe_findById id ;;
  match found with
  | None => fail 404 "Recipe not found"
  | Some recipe =>
      reviewId <- castObjectId (params_reviewId req) ;;
      match reviews_id reviewId (reviews recipe) with
      | None => fail 404 "Review not found"
      | Some review =>
          when (description_rejected description)
               (fail 400 "Reply description is required") ;;
          me <- the_user req ;;
          rid <- new_ObjectId ;;
          let reply := mkReply rid (default "" description) (user_id me) in
          Recipe_save
            (with_reviews (push_reply_at reviewId reply (reviews recipe))
                          recipe) ;;
          updatedRecipe <- Recipe_findById id ;;
          res_status 201 ;;
          ret (JsonRecipe ((fun r => mkRecipeJson r None) <$> updatedRecipe))
      end
  end.

Definition with_favorites (l : list ObjectId) (u : User) : User :=
  mkUser (user_id u) (username u) (email u) (password u) (profilePhoto u) l.

(** Add to favorites. *)
Definition addFavorite (req : Request) : M Json :=
  when (negb (isValid (params_id req))) (fail 400 "Invalid recipe ID") ;;
  id <- castObjectId (params_id req) ;;
  found <- Recipe_findById id ;;
  match found with
  | None => fail 404 "Recipe not found"
  | Some recipe =>
      me <- the_user req ;;
      user <- User_findById (user_id me) ;;
      match user with
      | None => fail 404 "User not found"
      | Some user =>
          when (includes (favorites user) (_id recipe))
               (fail 400 "Recipe already in favorites") ;;
          User_save (with_favorites (favorites user ++ [_id recipe]) user) ;;
          ret (JsonFavorite "Recipe added to favorites" true)
      end
  end.

(** Remove from favorites. *)
Definition removeFavorite (req : Request) : M Json :=
  when (negb (isValid (params_id req))) (fail 400 "Invalid recipe ID") ;;
  id <- castObjectId (params_id req) ;;
  found <- Recipe_findById id ;;
  match found with
  | None => fail 404 "Recipe not found"
  | Some recipe =>
      me <- the_user req ;;
      user <- User_findById (user_id me) ;;
      match user with
      | None => fail 404 "User not found"
      | Some user =>
          when (negb (includes (favorites user) (_id recipe)))
               (fail 400 "Recipe not in favorites") ;;
          User_save
            (with_favorites
               (List.filter
                  (fun favId => negb (String.eqb (toString favId)
                                                 (toString (_id recipe))))
                  (favorites user))
               user) ;;
          ret (JsonFavorite "Recipe removed from favorites" false)
      end
  end.

(** *** routes/recipes.js: the router

    The routes as registered, each with the middleware the source puts in
    front of its handler.  ([upload.single] only fills [req.file].) *)
Definition PUT_users_profile_photo := via protect updateProfilePhoto.
Definition POST_recipe := via protect createRecipe.
Definition GET_recipes := listRecipes.
Definition GET_recipe := getRecipe.
Definition PUT_recipe := via protect updateRecipe.
Definition DELETE_recipe := via protect deleteRecipe.
Definition POST_review := via protect addReview.
Definition POST_reply := via protect addReply.
Definition POST_favorite := via protect addFavorite.
Definition DELETE_favorite := via protect removeFavorite.

End Handlers.

(** ** A concrete deployment

    One platform, two users, one recipe and three behaviours of the asset
    store, on which the theorems above are run. *)

Module Sample.

Definition is_hex (c : ascii) : bool :=
  let n := nat_of_ascii c in
  (Nat.leb 48 n && Nat.leb n 57) || (Nat.leb 97 n && Nat.leb n 102)
  || (Nat.leb 65 n && Nat.leb n 70).

Definition platform : Platform := {|
  ObjectId_parse s :=
    if Nat.eqb (String.length s) 24
       && forallb is_hex (list_ascii_of_string s)
    then Some s else None;
  ObjectId_fresh n := "65f00000000000000000000" +:+ pretty n;
  jwt_verify t :=
    if String.eqb t "alice.jwt" then Some (Some "64a000000000000000000001")
    else if String.eqb t "bob.jwt" then Some (Some "64a000000000000000000002")
    else if String.eqb t "anonymous.jwt" then Some None
    else None;
  JSON_parse s :=
    if String.eqb s "[]" then Some []
    else if String.eqb s "[1,2]" then Some ["1"; "2"]
    else None
|}.

Definition soup_id : ObjectId := "64b000000000000000000001".
Definition bobs_review_id : ObjectId := "64c000000000000000000001".

Definition alice : User :=
  mkUser "64a000000000000000000001" "alice" "alice@example.org"
         (Some "$2a$10$hash-a")
         (Some (mkPhoto "recipe-app/profiles/a0" "https://cdn/a0.jpg")) [].

Definition bob : User :=
  mkUser "64a000000000000000000002" "bob" "bob@example.org"
         (Some "$2a$10$hash-b") None [soup_id].

Definition bobs_review : Review :=
  mkReview bobs_review_id (8 # 1) "hearty" (user_id bob) [].

Definition old_photo : Photo :=
  mkPhoto "recipe-app/recipes/p0" "https://cdn/p0.jpg".

(** Alice's recipe, reviewed by Bob. *)
Definition soup : Recipe :=
  mkRecipe soup_id "Soup" ["salt"; "water"] "boil" "dinner" "20"
           (Some old_photo) (user_id alice) [bobs_review].

Definition uploaded : UploadResult :=
  mkUploadResult "recipe-app/recipes/p1" "https://cdn/p1.jpg".

Definition store_up : Cloudinary :=
  mkCloudinary (fun _ => None) (fun _ _ => inr uploaded).
Definition release_down : Cloudinary :=
  mkCloudinary (fun _ => Some "timeout") (fun _ _ => inr uploaded).
Definition upload_down : Cloudinary :=
  mkCloudinary (fun _ => None) (fun _ _ => inl "timeout").

Definition world (c : Cloudinary) : State :=
  mkState {[ soup_id := soup ]}
          {[ user_id alice := alice; user_id bob := bob ]}
          c [] 0 200.

Definition no_fields : Body :=
  mkBody None None None None None None None.

Definition review_fields (q : Js.number) (d : string) : Body :=
  mkBody None None None None None (Some q) (Some d).

Definition recipe_fields : Body :=
  mkBody (Some "Stew") (Some "[1,2]") (Some "simmer") (Some "dinner")
         (Some "45") None None.

Definition jpeg : File := mkFile "soup.jpg" [Byte.xff; Byte.xd8].

(** A request for the soup as it reaches the router, with a bearer
    token. *)
Definition incoming (token : string) (b : Body) (f : option File)
    : Request :=
  mkRequest (Some ("Bearer " +:+ token)) soup_id bobs_review_id None b f
            None.

(** The same request after [protect] resolved it to [u]. *)
Definition request_of (u : User) (token : string) (b : Body)
    (f : option File) : Request :=
  with_user (without_password u) (incoming token b f).

End Sample.

(** ** The remaining routes of routes/recipes.js *)

(** What [select("title category photo _id")] keeps of a recipe. *)
Record RecipeSummary := mkRecipeSummary {
  summary_id : ObjectId;
  summary_title : string;
  summary_category : string;
  summary_photo : option Photo
}.

Definition summary (r : Recipe) : RecipeSummary :=
  mkRecipeSummary (_id r) (title r) (category r) (photo r).

Section Listings.

Context `{Platform}.

(** [populate("favorites")]: each identifier of the array is replaced by
    the recipe it names; an identifier that names no recipe is left out. *)
Definition populate_favorites (st : State) (ids : list ObjectId)
    : list Recipe :=
  omap (fun id => recipes st !! id) ids.

(** [Recipe.find({ createdBy })]. *)
Definition Recipe_find_createdBy (owner : ObjectId) : M (list Recipe) :=
  st <- get ;;
  ret (List.filter (fun r => String.eqb (toString (createdBy r))
                                        (toString owner))
                   (map_to_list (recipes st)).*2).

(** Get user's favorite recipes. *)
Definition getFavorites (req : Request) : M Json :=
  me <- the_user req ;;
  user <- User_findById (user_id me) ;;
  match user with
  | None => fail 404 "User not found"
  | Some user =>
      st <- get ;;
      ret (JsonRecipes (map (fun r => mkRecipeJson r None)
                            (populate_favorites st (favorites user))))
  end.

(** Get user's own recipes. *)
Definition myRecipes (req : Request) : M Json :=
  me <- the_user req ;;
  found <- Recipe_find_createdBy (user_id me) ;;
  ret (JsonRecipes (map (fun r => mkRecipeJson r None) found)).

(** Get recipes by user ID; [userId] is [req.params.userId]. *)
Definition userRecipes (userId : string) (req : Request)
    : M (list RecipeSummary) :=
  when (negb (isValid userId)) (fail 400 "Invalid user ID") ;;
  me <- the_user req ;;
  when (negb (String.eqb userId (toString (user_id me))))
       (fail 403 "Not authorized to view this user's recipes") ;;
  owner <- castObjectId userId ;;
  found <- Recipe_find_createdBy owner ;;
  ret (map summary found).

Definition GET_favorites := via protect getFavorites.
Definition GET_my_recipes := via protect myRecipes.

(** The routes of the router that answer with a recipe, a list of recipes
    or a message, in the order of the source. *)
Definition recipe_routes : list (Request -> M Json) :=
  [PUT_users_profile_photo; POST_recipe; GET_recipes; GET_favorites;
   GET_my_recipes; GET_recipe; PUT_recipe; DELETE_recipe; POST_review;
   POST_reply; POST_favorite; DELETE_favorite].

(** *** server.js *)

(** [app.use((err, req, res, next) => res.status(500).json({ message:
    "Server error" }))]: where every error that a route passes on ends. *)
Definition errorMiddleware (err : Exn) : M Json :=
  res_status 500 ;; ret (JsonMessage "Server error").

(** A route as mounted in the app, with the error middleware behind it. *)
Definition app (route : Request -> M Json) (req : Request) : M Json :=
  try_catch (route req) errorMiddleware.

End Listings.

(** A handler that answers with something else than [Json]. *)
Inductive OutcomeOf (A : Type) : Type :=
| SentOf (status : nat) (a : A)
| FailedOf (status : nat) (e : Exn).
Arguments SentOf {A} status a.
Arguments FailedOf {A} status e.

Definition serve_of {A} (h : Request -> M A) (req : Request) (st : State)
    : OutcomeOf A * State :=
  match h req (with_status 200 st) with
  | (Returned a, st') => (SentOf (statusCode st') a, st')
  | (Thrown e, st') => (FailedOf (statusCode st') e, st')
  end.

(** [via] for such a handler. *)
Definition via_of {A} (mw : Request -> M Request) (h : Request -> M A)
    (req : Request) : M A :=
  req' <- mw req ;; h req'.

(** *** Vocabulary of the further statements *)

(** [res.statusCode] is one of the two success codes the handlers use. *)
Definition status_ok (st : State) : Prop :=
  statusCode st = 200 \/ statusCode st = 201.

(** A computation that, started under a success code, can only return
    under a success code. *)
Definition keeps_ok {A} (m : M A) : Prop :=
  forall st a st', status_ok st -> m st = (Returned a, st') -> status_ok st'.

(** A computation that returns under the status it was started under. *)
Definition keeps_status {A} (m : M A) : Prop :=
  forall st a st', m st = (Returned a, st') -> statusCode st' = statusCode st.

(** A computation that leaves the collections and the log alone, however
    it ends. *)
Definition read_only {A} (m : M A) : Prop :=
  forall st,
    recipes (snd (m st)) = recipes st
    /\ users (snd (m st)) = users st
    /\ log (snd (m st)) = log st.

(** The request carries an [Authorization] header that begins with
    "Bearer". *)
Definition bearer (req : Request) : bool :=
  match headers_authorization req with
  | Some authorization =>
      Js.truthy authorization && String.prefix "Bearer" authorization
  | None => false
  end.

(** No code unit of the string is a space. *)
Fixpoint spaceless (s : string) : bool :=
  match s with
  | EmptyString => true
  | String c s' => negb (Ascii.eqb c " "%char) && spaceless s'
  end.

(** What [sent || old] leaves in a field: the value that was sent when one
    was sent and is not empty, else the old value. *)
Definition partial_update (sent : option string) (old new : string)
    : Prop :=
  match sent with
  | Some s => if decide (s = "") then new = old else new = s
  | None => new = old
  end.

(** ** A second recipe and further requests on the concrete deployment *)

Module Pantry.

Definition salad_id : ObjectId := "64b000000000000000000002".

(** Bob's recipe, without a photo asset and without reviews. *)
Definition salad : Recipe :=
  mkRecipe salad_id "Salad" ["leaves"] "toss" "lunch" "5" None
           (user_id Sample.bob) [].

Definition pantry (c : Cloudinary) : State :=
  mkState {[ Sample.soup_id := Sample.soup; salad_id := salad ]}
          {[ user_id Sample.alice := Sample.alice;
             user_id Sample.bob := Sample.bob ]}
          c [] 0 200.

(** A request by [u] (or by nobody) for the recipe [id] and the review
    [reviewId]. *)
Definition request (u : option User) (id reviewId : string)
    (category : option string) (b : Body) (f : option File) : Request :=
  mkRequest None id reviewId category b f u.

Definition title_only : Body :=
  mkBody (Some "Broth") None (Some "") None None None None.

Definition bad_ingredients : Body :=
  mkBody None (Some "salt, water") None None None None None.

Definition unknown_id : ObjectId := "64b0000000000000000000ff".

(** A body with a description only. *)
Definition described (d : string) : Body :=
  mkBody None None None None None None (Some d).

End Pantry.

(** ** Ratings as JSON values

    [req.body.rating] is whatever JSON the client sent.  The handler tests
    it with [!rating], [rating < 1] and [rating > 10] and stores
    [Number(rating)], all of which coerce. *)

Module JsValue.

(** A Number: NaN, a finite number or an infinity. *)
Inductive numeric : Type :=
| NaN
| Finite (q : Q)
| Infinite (negative : bool).

(** A value of a parsed JSON body, or [undefined] for an absent field.  An
    array or object is kept as the string that ToPrimitive gives for it. *)
Inductive value : Type :=
| Undefined
| Null
| Boolean (b : bool)
| Number (n : numeric)
| Text (s : string)
| Object (primitive : string).

(** StringToNumber of ECMAScript, a built-in that is taken as it comes. *)
Class Coercion := { StringToNumber : string -> numeric }.

(** [!!v]. *)
Definition ToBoolean (v : value) : bool :=
  match v with
  | Undefined | Null => false
  | Boolean b => b
  | Number NaN => false
  | Number (Finite q) => negb (Js.num_falsy q)
  | Number (Infinite _) => true
  | Text s => Js.truthy s
  | Object _ => true
  end.

(** [Number(v)], which is also how [<] and [>] read [v] against a
    number. *)
Definition ToNumber `{Coercion} (v : value) : numeric :=
  match v with
  | Undefined => NaN
  | Null => Finite (0 # 1)
  | Boolean b => Finite (if b then 1 # 1 else 0 # 1)
  | Number n => n
  | Text s => StringToNumber s
  | Object primitive => StringToNumber primitive
  end.

(** [a < b] on Numbers: false as soon as one of them is NaN. *)
Definition lt (a b : numeric) : bool :=
  match a, b with
  | NaN, _ | _, NaN => false
  | Finite x, Finite y => Js.num_lt x y
  | Infinite true, Finite _ | Infinite true, Infinite false => true
  | Finite _, Infinite false => true
  | _, _ => false
  end.

End JsValue.

Section RatingAsSent.

Context `{Platform} `{JsValue.Coercion}.

(** [!rating || rating < 1 || rating > 10]. *)
Definition rating_check_fails (rating : JsValue.value) : bool :=
  negb (JsValue.ToBoolean rating)
  || JsValue.lt (JsValue.ToNumber rating) (JsValue.Finite (1 # 1))
  || JsValue.lt (JsValue.Finite (10 # 1)) (JsValue.ToNumber rating).

(** Add a review, with [req.body.rating] as the JSON value [rating]
    ([body_rating] of the request is not read).

    Modelled from the spec: the schema of [models/Recipe.js] types the
    rating as a number (section 3), so [recipe.save()] refuses a review
    whose rating is NaN and throws. *)
Definition addReview_of (rating : JsValue.value) (req : Request) : M Json :=
  let description := body_description (body req) in
  when (negb (isValid (params_id req))) (fail 400 "Invalid recipe ID") ;;
  id <- castObjectId (params_id req) ;;
  found <- Recipe_findById id ;;
  match found with
  | None => fail 404 "Recipe not found"
  | Some recipe =>
      when (rating_check_fails rating)
           (fail 400 "Rating must be between 1 and 10") ;;
      when (description_rejected description)
           (fail 400 "Description is required") ;;
      me <- the_user req ;;
      let alreadyReviewed :=
        existsb (fun review => String.eqb (toString (user review))
                                          (toString (user_id me)))
                (reviews recipe) in
      when alreadyReviewed
           (fail 400 "You have already reviewed this recipe") ;;
      rid <- new_ObjectId ;;
      match JsValue.ToNumber rating with
      | JsValue.Finite q =>
          let review := mkReview rid q (default "" description)
                                 (user_id me) [] in
          Recipe_save (push_review review recipe) ;;
          updatedRecipe <- Recipe_findById id ;;
          res_status 201 ;;
          ret (JsonRecipe ((fun r => mkRecipeJson r None) <$> updatedRecipe))
      | _ => throw CastError
      end
  end.

(** The route "/users/:userId/recipes" as registered. *)
Definition GET_user_recipes (userId : string) :=
  via_of protect (userRecipes userId).

(** A route with another answer than [Json], with the error middleware
    behind it: the answer of the route or that of the middleware. *)
Definition app_of {A} (route : Request -> M A) (req : Request)
    : M (A + Json) :=
  try_catch (a <- route req ;; ret (inl a))
            (fun err => json <- errorMiddleware err ;; ret (inr json)).

End RatingAsSent.

(** The coercion of a few strings, for the concrete deployment. *)
Module Coerce.

Definition sample : JsValue.Coercion := {|
  JsValue.StringToNumber s :=
    if String.eqb s "" then JsValue.Finite (0 # 1)
    else if String.eqb s "0" then JsValue.Finite (0 # 1)
    else if String.eqb s "1" then JsValue.Finite (1 # 1)
    else if String.eqb s "10" then JsValue.Finite (10 # 1)
    else if String.eqb s "11" then JsValue.Finite (11 # 1)
    else JsValue.NaN
|}.

End Coerce.

(** ** Properties of the handlers *)

Section Properties.

Context `{Platform}.

(** *** Vocabulary of the statements *)

(** Two states agree on everything but [res.statusCode]: nothing was
    written to a collection and no external call was made. *)
Definition untouched (st st' : State) : Prop :=
  recipes st' = recipes st /\ users st' = users st /\ log st' = log st.

(** The release of the asset a handle names, as the handlers log it:
    nothing when the handle has no identifier. *)
Definition release_events (p : option Photo) : list Event :=
  match photo_public_id p with
  | Some pid => [CloudDestroy pid]
  | None => []
  end.

(** [uploader.destroy] resolves for the asset of the handle, if any. *)
Definition release_resolves (st : State) (p : option Photo) : Prop :=
  match photo_public_id p with
  | Some pid => destroy_rejects (cloudinary st) pid = None
  | None => True
  end.

Definition plain (r : Recipe) : RecipeJson := mkRecipeJson r None.

(** The recipes [Recipe.find] returns for the query of a request. *)
Definition matching (req : Request) (st : State) : list Recipe :=
  let all := (map_to_list (recipes st)).*2 in
  match query_category req with
  | Some c =>
      if Js.truthy c
      then List.filter (fun r => String.eqb (category r) c) all
      else all
  | None => all
  end.

(** The auth gate accepts the bearer token of the request and resolves
    it to [me]. *)
Definition authenticates (req : Request) (st : State) (me : User) : Prop :=
  exists st', protect req st = (Returned (with_user me req), st').

(** A string has content when some code unit of it is not white space. *)
Definition has_content (d : string) : bool :=
  existsb (fun c => negb (Js.isWhiteSpace c)) (list_ascii_of_string d).

(** The author of some review of the list is [me]. *)
Definition reviewed_by (me : User) (l : list Review) : bool :=
  existsb (fun review => String.eqb (toString (user review))
                                    (toString (user_id me))) l.

(** The review that a successful [addReview] appends. *)
Definition new_review (st : State) (me : User) (q : Js.number)
    (d : string) : Review :=
  mkReview (ObjectId_fresh (oid_counter st)) q d (user_id me) [].

(** ** Running handlers symbolically *)

Lemma untouched_with_status n st : untouched st (with_status n st).
Proof. by repeat split. Qed.

Lemma String_eqb_neq (a b : string) : a <> b -> String.eqb a b = false.
Proof. intros Hne. by apply String.eqb_neq. Qed.

Lemma includes_elem_of (l : list ObjectId) (x : ObjectId) :
  includes l x = true <-> x ∈ l.
Proof.
  unfold includes, toString. rewrite existsb_exists. split.
  - intros (y & Hin & Heq). apply String.eqb_eq in Heq. subst.
    by apply list_elem_of_In.
  - intros Hin. exists x. split; [by apply list_elem_of_In|].
    apply String.eqb_refl.
Qed.

Lemma includes_not_elem_of (l : list ObjectId) (x : ObjectId) :
  includes l x = false <-> x ∉ l.
Proof.
  rewrite <- includes_elem_of. destruct (includes l x); naive_solver.
Qed.

(** Unfold the handler monad down to state passing. *)
Ltac unfold_M :=
  unfold serve, via, when, fail, res_status, the_user, castObjectId,
    isValid, Recipe_findById, User_findById, Recipe_save,
    Recipe_deleteOne, User_save, User_findByIdAndUpdate, Recipe_create,
    new_ObjectId, cloudinary_destroy, cloudinary_upload, try_catch,
    modify, get, bind, ret, throw in *.

(** Read a field of a state built by the setters. *)
Ltac state_eq :=
  unfold with_recipes, with_users, with_event, with_status, with_next_oid;
  simpl; rewrite <- ?app_assoc; try done.

(** ** Ownership *)

(** C5. An authenticated actor who is not the owner of an existing recipe
    cannot update or delete it: both handlers set status 401 and throw
    "Not authorized" (the Forbidden failure), whatever the body and the
    file of the request are, without any write to a collection and
    without any external call. *)
Theorem non_owner_is_forbidden (req : Request) (st : State)
    (recipe : Recipe) (me : User) :
  ObjectId_parse (params_id req) = Some (_id recipe) ->
  recipes st !! _id recipe = Some recipe ->
  req_user req = Some me ->
  createdBy recipe <> user_id me ->
  (exists st', serve updateRecipe req st
               = (Failed 401 (Error "Not authorized"), st')
               /\ untouched st st')
  /\ (exists st', serve deleteRecipe req st
                  = (Failed 401 (Error "Not authorized"), st')
                  /\ untouched st st').
Proof.
  intros Hid Hrec Hme Hne.
  apply String_eqb_neq in Hne.
  split; eexists; unfold updateRecipe, deleteRecipe; unfold_M;
    rewrite Hid; simpl; rewrite Hrec, Hme; simpl;
    unfold toString; rewrite Hne; simpl; (split; [reflexivity|]);
    by repeat split.
Qed.

(** ** Photo assets *)

(** C1, as the code has it.  On a delete by the owner of an existing
    recipe whose photo names an asset: when the release resolves, the
    record is deleted and "Recipe deleted" is sent; when the release
    rejects, the rejection is thrown by the handler, the request fails
    and the record stays in the collection.  An update that carries a
    new photo fails in the same way, before it uploads or saves. *)
Theorem release_failure_is_thrown (req : Request) (st : State)
    (recipe : Recipe) (me : User) (pid : string) :
  ObjectId_parse (params_id req) = Some (_id recipe) ->
  recipes st !! _id recipe = Some recipe ->
  req_user req = Some me ->
  createdBy recipe = user_id me ->
  photo_public_id (photo recipe) = Some pid ->
  (destroy_rejects (cloudinary st) pid = None ->
   exists st', serve deleteRecipe req st
               = (Sent 200 (JsonMessage "Recipe deleted"), st')
               /\ recipes st' = delete (_id recipe) (recipes st)
               /\ log st' = log st ++ [CloudDestroy pid;
                                       RecipeDelete (_id recipe)])
  /\ (forall e, destroy_rejects (cloudinary st) pid = Some e ->
      exists st', serve deleteRecipe req st
                  = (Failed 200 (CloudinaryError e), st')
                  /\ recipes st' = recipes st
                  /\ log st' = log st ++ [CloudDestroy pid])
  /\ (forall e f, file req = Some f ->
      destroy_rejects (cloudinary st) pid = Some e ->
      exists st', serve updateRecipe req st
                  = (Failed 200 (CloudinaryError e), st')
                  /\ recipes st' = recipes st
                  /\ log st' = log st ++ [CloudDestroy pid]).
Proof.
  intros Hid Hrec Hme Hown Hpid.
  assert (Heq : String.eqb (createdBy recipe) (user_id me) = true)
    by (by apply String.eqb_eq).
  repeat split.
  - intros Hok. eexists. unfold deleteRecipe. unfold_M.
    rewrite Hid. simpl. rewrite Hrec, Hme. simpl.
    unfold toString. rewrite Heq, Hpid. simpl. rewrite Hok. simpl.
    repeat split; state_eq.
  - intros e Hrej. eexists. unfold deleteRecipe. unfold_M.
    rewrite Hid. simpl. rewrite Hrec, Hme. simpl.
    unfold toString. rewrite Heq, Hpid. simpl. rewrite Hrej. simpl.
    repeat split; state_eq.
  - intros e f Hfile Hrej. eexists. unfold updateRecipe. unfold_M.
    rewrite Hid. simpl. rewrite Hrec, Hme. simpl.
    unfold toString. rewrite Heq, Hfile, Hpid. simpl. rewrite Hrej. simpl.
    repeat split; state_eq.
Qed.

(** C3. On an update by the owner that carries a new photo, the handler
    releases the old asset, then uploads the new one, then assigns the
    new handle and saves the recipe, in that order.  When the release
    rejects it neither uploads nor saves; when the upload fails it does
    not save, so the stored recipe, with its old photo handle, is what it
    was; the save happens, after both calls, when both succeed (and the
    ingredients field, if sent, parses), and the photo of the recipe that
    is then stored is the identifier and the url that the upload
    returned. *)
Theorem photo_replacement_order (req : Request) (st : State)
    (recipe : Recipe) (me : User) (f : File) :
  ObjectId_parse (params_id req) = Some (_id recipe) ->
  recipes st !! _id recipe = Some recipe ->
  req_user req = Some me ->
  createdBy recipe = user_id me ->
  file req = Some f ->
  let upload := CloudUpload "recipe-app/recipes" (buffer f) in
  (forall pid e,
      photo_public_id (photo recipe) = Some pid ->
      destroy_rejects (cloudinary st) pid = Some e ->
      exists st', serve updateRecipe req st
                  = (Failed 200 (CloudinaryError e), st')
                  /\ recipes st' = recipes st
                  /\ log st' = log st ++ [CloudDestroy pid])
  /\ (forall e,
      release_resolves st (photo recipe) ->
      upload_answer (cloudinary st) "recipe-app/recipes" (buffer f)
      = inl e ->
      exists st', serve updateRecipe req st
                  = (Failed 200 (CloudinaryError e), st')
                  /\ recipes st' = recipes st
                  /\ recipes st' !! _id recipe = Some recipe
                  /\ log st' = log st ++ release_events (photo recipe)
                                      ++ [upload])
  /\ (forall result,
      release_resolves st (photo recipe) ->
      upload_answer (cloudinary st) "recipe-app/recipes" (buffer f)
      = inr result ->
      (truthy_opt (body_ingredients (body req)) = true ->
       is_Some (JSON_parse (default "" (body_ingredients (body req))))) ->
      exists st' recipe',
        serve updateRecipe req st
        = (Sent 200 (JsonRecipe (Some (mkRecipeJson recipe' None))), st')
        /\ photo recipe'
           = Some (mkPhoto (result_public_id result) (secure_url result))
        /\ recipes st' = <[_id recipe := recipe']> (recipes st)
        /\ log st' = log st ++ release_events (photo recipe)
                            ++ [upload; RecipeSave recipe']).
Proof.
  intros Hid Hrec Hme Hown Hfile upload.
  assert (Heq : String.eqb (createdBy recipe) (user_id me) = true)
    by (by apply String.eqb_eq).
  unfold release_resolves, release_events.
  repeat split.
  - intros pid e Hpid Hrej. eexists. unfold updateRecipe. unfold_M.
    rewrite Hid. simpl. rewrite Hrec, Hme. simpl.
    unfold toString. rewrite Heq, Hfile, Hpid. simpl. rewrite Hrej. simpl.
    repeat split; state_eq.
  - intros e Hrel Hup.
    destruct (photo_public_id (photo recipe)) as [pid|] eqn:Hpid;
      eexists; unfold updateRecipe; unfold_M;
      rewrite Hid; simpl; rewrite Hrec, Hme; simpl;
      unfold toString; rewrite Heq, Hfile, Hpid; simpl;
      rewrite ?Hrel; simpl; rewrite Hup; simpl;
      repeat split; state_eq.
  - intros result Hrel Hup Hing.
    destruct (truthy_opt (body_ingredients (body req))) eqn:Hpresent;
      [destruct Hing as [parsed Hparsed]; [done|] | clear Hing];
      destruct (photo_public_id (photo recipe)) as [pid|] eqn:Hpid;
      eexists; eexists; unfold updateRecipe; unfold_M;
      rewrite Hid; simpl; rewrite Hrec, Hme; simpl;
      unfold toString; rewrite Heq, Hfile, Hpresent, ?Hparsed, Hpid; simpl;
      rewrite ?Hrel; simpl; rewrite Hup; simpl;
      rewrite lookup_insert_eq; simpl;
      repeat split; state_eq.
Qed.

(** C10. The profile photo handler uploads the new photo first, then
    releases the old asset, then writes the user record.  When the upload
    fails, the handler sets status 500 and throws "Failed to upload photo
    to Cloudinary"; it has released nothing and written nothing, so the
    stored [profilePhoto] of the user is what it was. *)
Theorem profile_photo_upload_first (req : Request) (st : State)
    (me : User) (f : File) :
  req_user req = Some me ->
  file req = Some f ->
  let upload := CloudUpload "recipe-app/profiles" (buffer f) in
  (forall e,
      upload_answer (cloudinary st) "recipe-app/profiles" (buffer f)
      = inl e ->
      exists st', serve updateProfilePhoto req st
                  = (Failed 500 (Error "Failed to upload photo to Cloudinary"),
                     st')
                  /\ users st' = users st
                  /\ recipes st' = recipes st
                  /\ log st' = log st ++ [upload])
  /\ (forall result u,
      upload_answer (cloudinary st) "recipe-app/profiles" (buffer f)
      = inr result ->
      release_resolves st (profilePhoto me) ->
      users st !! user_id me = Some u ->
      exists st', serve updateProfilePhoto req st
                  = (Sent 200 (JsonProfile
                                 (Some (photo_of result))
                                 "Profile photo updated successfully"),
                     st')
                  /\ users st' = <[user_id me :=
                                     set_profilePhoto (photo_of result) u]>
                                   (users st)
                  /\ log st' = log st ++ [upload]
                                      ++ release_events (profilePhoto me)
                                      ++ [UserUpdatePhoto (user_id me)
                                            (photo_of result)]).
Proof.
  intros Hme Hfile upload. unfold release_resolves, release_events.
  split.
  - intros e Hup. eexists. unfold updateProfilePhoto. unfold_M.
    rewrite Hfile. simpl. rewrite Hup. simpl.
    repeat split; state_eq.
  - intros result u Hup Hrel Hu.
    destruct (photo_public_id (profilePhoto me)) as [pid|] eqn:Hpid;
      eexists; unfold updateProfilePhoto; unfold_M;
      rewrite Hfile; simpl; rewrite Hup, Hme; simpl; rewrite Hpid; simpl;
      rewrite ?Hrel; simpl; rewrite Hu; simpl;
      repeat split; state_eq.
Qed.

(** ** Favorite annotation *)

Lemma some_is_includes (l : list ObjectId) (x : ObjectId) :
  existsb (fun favId => String.eqb favId x) l = includes l x.
Proof.
  unfold includes, toString.
  induction l as [|y l IH]; [done|]. simpl.
  by rewrite IH, String.eqb_sym.
Qed.

(** What the two handlers do once [req.user] is set: every recipe of the
    answer carries [isFavorited], computed from the stored favorites of
    that user. *)
Lemma handlers_annotate_for_viewer (req : Request) (st : State)
    (me u : User) :
  req_user req = Some me ->
  users st !! user_id me = Some u ->
  serve listRecipes req st
  = (Sent 200 (JsonRecipes
                 (map (fun r => mkRecipeJson r
                                  (Some (includes (favorites u) (_id r))))
                      (matching req st))),
     with_status 200 st)
  /\ (forall recipe,
      ObjectId_parse (params_id req) = Some (_id recipe) ->
      recipes st !! _id recipe = Some recipe ->
      serve getRecipe req st
      = (Sent 200 (JsonRecipe
                     (Some (mkRecipeJson recipe
                              (Some (includes (favorites u) (_id recipe)))))),
         with_status 200 st)).
Proof.
  intros Hme Hu. split.
  - unfold listRecipes, Recipe_find, matching. unfold_M. simpl.
    rewrite Hme. simpl. rewrite Hu. simpl.
    do 3 f_equal. unfold includes, toString.
    destruct (query_category req) as [c|]; [destruct (Js.truthy c)|];
      apply map_ext; intros r; by rewrite map_id.
  - intros recipe Hid Hrec. unfold getRecipe. unfold_M.
    rewrite Hid. simpl. rewrite Hrec, Hme. simpl. rewrite Hu. simpl.
    unfold toString. by rewrite some_is_includes.
Qed.

(** C2, at the failing input.  A request reaches the router without a
    [user] property, and the routes "/" and "/:id" are registered without
    [protect]: also when the request carries a bearer token that the auth
    gate accepts, the handlers see no user, and no recipe of the answer
    carries [isFavorited].  (The unauthenticated half of C2 is the same
    statement without the token.) *)
Theorem authenticated_caller_gets_no_isFavorited (req : Request)
    (st : State) (me : User) :
  req_user req = None ->
  authenticates req st me ->
  serve GET_recipes req st
  = (Sent 200 (JsonRecipes (map plain (matching req st))),
     with_status 200 st)
  /\ Forall (fun r => isFavorited r = None) (map plain (matching req st))
  /\ (forall recipe,
      ObjectId_parse (params_id req) = Some (_id recipe) ->
      recipes st !! _id recipe = Some recipe ->
      serve GET_recipe req st
      = (Sent 200 (JsonRecipe (Some (plain recipe))), with_status 200 st)
        /\ isFavorited (plain recipe) = None).
Proof.
  intros Hnone _. split; [|split].
  - unfold GET_recipes, listRecipes, Recipe_find, matching. unfold_M.
    simpl. rewrite Hnone. simpl.
    by destruct (query_category req) as [c|]; [destruct (Js.truthy c)|].
  - induction (matching req st); by constructor.
  - intros recipe Hid Hrec. unfold GET_recipe, getRecipe. unfold_M.
    rewrite Hid. simpl. rewrite Hrec, Hnone. done.
Qed.

(** ** Reviews and replies *)

Lemma trimStart_list_nil (l : list ascii) :
  Js.trimStart_list l = [] <-> forallb Js.isWhiteSpace l = true.
Proof.
  induction l as [|c l IH]; [done|]. simpl.
  destruct (Js.isWhiteSpace c); simpl; [done|]. split; discriminate.
Qed.

Lemma trimStart_list_content (l : list ascii) :
  forallb Js.isWhiteSpace (Js.trimStart_list l)
  = forallb Js.isWhiteSpace l.
Proof.
  induction l as [|c l IH]; [done|]. simpl.
  destruct (Js.isWhiteSpace c) eqn:Hc; simpl; [done|]. by rewrite Hc.
Qed.

Lemma forallb_rev {A} (p : A -> bool) (l : list A) :
  forallb p (rev l) = forallb p l.
Proof.
  induction l as [|x l IH]; [done|]. simpl.
  rewrite forallb_app, IH. simpl. destruct (p x), (forallb p l); done.
Qed.

Lemma trim_list_nil (l : list ascii) :
  Js.trim_list l = [] <-> forallb Js.isWhiteSpace l = true.
Proof.
  unfold Js.trim_list.
  rewrite <- (trimStart_list_content l), <- (forallb_rev _ (Js.trimStart_list l)).
  rewrite <- trimStart_list_nil. split.
  - intros Hnil. apply (f_equal (@rev ascii)) in Hnil.
    by rewrite rev_involutive in Hnil.
  - by intros ->.
Qed.

(** [d.trim() === ""] exactly when [d] has no content. *)
Lemma trim_empty_iff (d : string) :
  Js.trim d = "" <-> has_content d = false.
Proof.
  unfold Js.trim, has_content.
  assert (Hall : forall l, existsb (fun c => negb (Js.isWhiteSpace c)) l
                           = negb (forallb Js.isWhiteSpace l)).
  { induction l as [|c l IH]; [done|]. simpl. rewrite IH.
    by destruct (Js.isWhiteSpace c). }
  rewrite Hall, negb_false_iff, <- trim_list_nil. split.
  - intros Hnil. apply (f_equal list_ascii_of_string) in Hnil.
    by rewrite list_ascii_of_string_of_list_ascii in Hnil.
  - by intros ->.
Qed.

Lemma description_rejected_iff (d : string) :
  description_rejected (Some d) = true <-> has_content d = false.
Proof.
  unfold description_rejected, Js.truthy. rewrite <- trim_empty_iff.
  destruct (String.eqb_spec d "") as [->|Hne]; simpl.
  - done.
  - by rewrite String.eqb_eq.
Qed.

Lemma description_accepted (d : string) :
  has_content d = true -> description_rejected (Some d) = false.
Proof.
  intros Hc. destruct (description_rejected (Some d)) eqn:Hr; [|done].
  apply description_rejected_iff in Hr. congruence.
Qed.

Lemma rating_accepted_iff (q : Js.number) :
  rating_rejected (Some q) = false <-> (1 # 1 <= q)%Q /\ (q <= 10 # 1)%Q.
Proof.
  unfold rating_rejected, Js.num_gt, Js.num_lt, Js.num_falsy.
  rewrite !orb_false_iff, !negb_false_iff, !Qle_bool_iff. split.
  - by intros [[_ ?] ?].
  - intros [Hlo Hhi]. repeat split; try done.
    destruct (Qeq_bool q (0 # 1)) eqn:Hz; [|done].
    apply Qeq_bool_iff in Hz. revert Hlo Hz. unfold Qle, Qeq. simpl. lia.
Qed.

Lemma rating_out_of_range (q : Js.number) :
  (q < 1 # 1)%Q \/ (10 # 1 < q)%Q -> rating_rejected (Some q) = true.
Proof.
  intros Hout. destruct (rating_rejected (Some q)) eqn:Hr; [done|].
  apply rating_accepted_iff in Hr. destruct Hr as [Hlo Hhi].
  destruct Hout as [Hlt|Hlt]; apply Qlt_not_le in Hlt; contradiction.
Qed.

Lemma reviewed_by_elem_of (me : User) (l : list Review) :
  reviewed_by me l = true <-> user_id me ∈ map user l.
Proof.
  unfold reviewed_by, toString. rewrite existsb_exists, list_elem_of_In.
  rewrite in_map_iff. split.
  - intros (rv & Hin & Heq). apply String.eqb_eq in Heq. eauto.
  - intros (rv & Heq & Hin). exists rv. split; [done|].
    by apply String.eqb_eq.
Qed.

(** The four ways [addReview] ends on an existing recipe. *)
Lemma addReview_rating (req : Request) (st : State) (recipe : Recipe) :
  ObjectId_parse (params_id req) = Some (_id recipe) ->
  recipes st !! _id recipe = Some recipe ->
  rating_rejected (body_rating (body req)) = true ->
  serve addReview req st
  = (Failed 400 (Error "Rating must be between 1 and 10"),
     with_status 400 st).
Proof.
  intros Hid Hrec Hr. unfold addReview. unfold_M.
  rewrite Hid. simpl. rewrite Hrec, Hr. done.
Qed.

Lemma addReview_description (req : Request) (st : State)
    (recipe : Recipe) :
  ObjectId_parse (params_id req) = Some (_id recipe) ->
  recipes st !! _id recipe = Some recipe ->
  rating_rejected (body_rating (body req)) = false ->
  description_rejected (body_description (body req)) = true ->
  serve addReview req st
  = (Failed 400 (Error "Description is required"), with_status 400 st).
Proof.
  intros Hid Hrec Hr Hd. unfold addReview. unfold_M.
  rewrite Hid. simpl. rewrite Hrec, Hr, Hd. done.
Qed.

Lemma addReview_duplicate (req : Request) (st : State) (recipe : Recipe)
    (me : User) :
  ObjectId_parse (params_id req) = Some (_id recipe) ->
  recipes st !! _id recipe = Some recipe ->
  req_user req = Some me ->
  rating_rejected (body_rating (body req)) = false ->
  description_rejected (body_description (body req)) = false ->
  reviewed_by me (reviews recipe) = true ->
  serve addReview req st
  = (Failed 400 (Error "You have already reviewed this recipe"),
     with_status 400 st).
Proof.
  intros Hid Hrec Hme Hr Hd Hdup. unfold addReview. unfold_M.
  rewrite Hid. simpl. rewrite Hrec, Hr, Hd, Hme. simpl.
  unfold reviewed_by in Hdup. rewrite Hdup. done.
Qed.

Lemma addReview_accepted (req : Request) (st : State) (recipe : Recipe)
    (me : User) (q : Js.number) (d : string) :
  ObjectId_parse (params_id req) = Some (_id recipe) ->
  recipes st !! _id recipe = Some recipe ->
  req_user req = Some me ->
  body_rating (body req) = Some q ->
  body_description (body req) = Some d ->
  rating_rejected (Some q) = false ->
  description_rejected (Some d) = false ->
  reviewed_by me (reviews recipe) = false ->
  let recipe' := push_review (new_review st me q d) recipe in
  exists st',
    serve addReview req st
    = (Sent 201 (JsonRecipe (Some (plain recipe'))), st')
    /\ recipes st' = <[_id recipe := recipe']> (recipes st)
    /\ users st' = users st
    /\ log st' = log st ++ [RecipeSave recipe'].
Proof.
  intros Hid Hrec Hme Hq Hd Hr Hdr Hnew recipe'. eexists.
  unfold addReview. unfold_M.
  rewrite Hid. simpl. rewrite Hrec, Hq, Hd, Hr, Hdr, Hme. simpl.
  unfold reviewed_by in Hnew. rewrite Hnew. simpl.
  rewrite lookup_insert_eq. simpl. repeat split; state_eq.
Qed.

Lemma reviews_id_push_reply_at (reviewId : ObjectId) (rp : Reply)
    (l : list Review) :
  reviews_id reviewId (push_reply_at reviewId rp l)
  = push_reply rp <$> reviews_id reviewId l.
Proof.
  unfold reviews_id. induction l as [|rv l IH]; [done|]. simpl.
  destruct (String.eqb (toString (review_id rv)) (toString reviewId))
    eqn:Hrv; simpl; by rewrite Hrv.
Qed.

Lemma addReply_accepted (req : Request) (st : State) (recipe : Recipe)
    (me : User) (d : string) (reviewId : ObjectId) (review : Review) :
  ObjectId_parse (params_id req) = Some (_id recipe) ->
  recipes st !! _id recipe = Some recipe ->
  req_user req = Some me ->
  body_description (body req) = Some d ->
  description_rejected (Some d) = false ->
  ObjectId_parse (params_reviewId req) = Some reviewId ->
  reviews_id reviewId (reviews recipe) = Some review ->
  let reply := mkReply (ObjectId_fresh (oid_counter st)) d (user_id me) in
  let recipe' :=
    with_reviews (push_reply_at reviewId reply (reviews recipe)) recipe in
  exists st',
    serve addReply req st
    = (Sent 201 (JsonRecipe (Some (plain recipe'))), st')
    /\ recipes st' = <[_id recipe := recipe']> (recipes st)
    /\ log st' = log st ++ [RecipeSave recipe'].
Proof.
  intros Hid Hrec Hme Hd Hdr Hrid Hrv reply recipe'. eexists.
  unfold addReply. unfold_M.
  rewrite Hid, Hrid. simpl. rewrite Hrec, Hrv, Hd, Hdr, Hme. simpl.
  rewrite lookup_insert_eq. simpl. repeat split; state_eq.
Qed.

(** C4, as the code has it.  When a user already has a review on a
    recipe, a second [addReview] by that user fails with status 400 and
    leaves everything as it was.  The failure is "You have already
    reviewed this recipe" (DuplicateReview) when the new rating and
    description pass validation; validation runs first, so a rejected
    rating or description fails with its own message instead.  Through
    [addReview] a recipe whose reviews have distinct authors keeps
    reviews with distinct authors. *)
Theorem second_review_rejected (req : Request) (st : State)
    (recipe : Recipe) (me : User) :
  ObjectId_parse (params_id req) = Some (_id recipe) ->
  recipes st !! _id recipe = Some recipe ->
  req_user req = Some me ->
  (reviewed_by me (reviews recipe) = true ->
   serve addReview req st
   = (Failed 400
        (Error (if rating_rejected (body_rating (body req))
                then "Rating must be between 1 and 10"
                else if description_rejected
                          (body_description (body req))
                     then "Description is required"
                     else "You have already reviewed this recipe")),
      with_status 400 st))
  /\ (NoDup (map user (reviews recipe)) ->
      forall out st',
        serve addReview req st = (out, st') ->
        exists recipe',
          recipes st' !! _id recipe = Some recipe'
          /\ NoDup (map user (reviews recipe'))).
Proof.
  intros Hid Hrec Hme. split.
  - intros Hdup.
    destruct (rating_rejected (body_rating (body req))) eqn:Hr;
      [by apply (addReview_rating _ _ recipe)|].
    destruct (description_rejected (body_description (body req))) eqn:Hd;
      [by apply (addReview_description _ _ recipe)|].
    by apply (addReview_duplicate _ _ recipe me).
  - intros Hnodup out st' Hrun.
    destruct (rating_rejected (body_rating (body req))) eqn:Hr.
    { rewrite (addReview_rating _ _ recipe) in Hrun by done.
      inversion Hrun; subst. by exists recipe. }
    destruct (description_rejected (body_description (body req))) eqn:Hd.
    { rewrite (addReview_description _ _ recipe) in Hrun by done.
      inversion Hrun; subst. by exists recipe. }
    destruct (reviewed_by me (reviews recipe)) eqn:Hdup.
    { rewrite (addReview_duplicate _ _ recipe me) in Hrun by done.
      inversion Hrun; subst. by exists recipe. }
    destruct (body_rating (body req)) as [q|] eqn:Hq; [|done].
    destruct (body_description (body req)) as [d|] eqn:Hbd; [|done].
    destruct (addReview_accepted req st recipe me q d)
      as (st1 & Hrun1 & Hrecs & _); try done.
    rewrite Hrun1 in Hrun. inversion Hrun; subst.
    eexists. split; [by rewrite Hrecs, lookup_insert_eq|].
    simpl. rewrite map_app. apply NoDup_app. repeat split; try done.
    + intros x Hx Hx'. apply list_elem_of_singleton in Hx'. subst x.
      simpl in Hx. apply reviewed_by_elem_of in Hx. congruence.
    + apply NoDup_singleton.
Qed.

(** C9. Trimming serves validation only.  A description that has
    content, with or without white space around it, is accepted by
    [addReview] and by [addReply].  The recipe that is then stored has one
    more review, respectively one more reply at the end of the replies of
    the addressed review, and that review or reply carries the submitted
    string itself. *)
Theorem description_stored_untrimmed (req : Request) (st : State)
    (recipe : Recipe) (me : User) (d : string) :
  ObjectId_parse (params_id req) = Some (_id recipe) ->
  recipes st !! _id recipe = Some recipe ->
  req_user req = Some me ->
  body_description (body req) = Some d ->
  has_content d = true ->
  (forall q,
      body_rating (body req) = Some q ->
      rating_rejected (Some q) = false ->
      reviewed_by me (reviews recipe) = false ->
      exists st' recipe' review,
        serve addReview req st
        = (Sent 201 (JsonRecipe (Some (plain recipe'))), st')
        /\ recipes st' !! _id recipe = Some recipe'
        /\ reviews recipe' = reviews recipe ++ [review]
        /\ description review = d)
  /\ (forall reviewId review,
      ObjectId_parse (params_reviewId req) = Some reviewId ->
      reviews_id reviewId (reviews recipe) = Some review ->
      exists st' recipe' review' reply,
        serve addReply req st
        = (Sent 201 (JsonRecipe (Some (plain recipe'))), st')
        /\ recipes st' !! _id recipe = Some recipe'
        /\ reviews_id reviewId (reviews recipe') = Some review'
        /\ replies review' = replies review ++ [reply]
        /\ reply_description reply = d
        /\ reply_user reply = user_id me).
Proof.
  intros Hid Hrec Hme Hd Hc.
  apply description_accepted in Hc. split.
  - intros q Hq Hr Hnew.
    destruct (addReview_accepted req st recipe me q d)
      as (st' & Hrun & Hrecs & _); try done.
    exists st'. do 2 eexists. split; [done|].
    split; [by rewrite Hrecs, lookup_insert_eq|]. done.
  - intros reviewId review Hrid Hrv.
    destruct (addReply_accepted req st recipe me d reviewId review)
      as (st' & Hrun & Hrecs & _); try done.
    exists st'. do 3 eexists. split; [done|].
    split; [by rewrite Hrecs, lookup_insert_eq|]. simpl.
    rewrite reviews_id_push_reply_at, Hrv. simpl.
    split; [reflexivity|]. by repeat split.
Qed.

(** ** Favorites *)

Lemma includes_after_push (l : list ObjectId) (x : ObjectId) :
  includes (l ++ [x]) x = true.
Proof. apply includes_elem_of. set_solver. Qed.

Lemma includes_after_filter (l : list ObjectId) (x : ObjectId) :
  includes (List.filter (fun favId => negb (String.eqb (toString favId)
                                                       (toString x))) l) x
  = false.
Proof.
  apply includes_not_elem_of. rewrite list_elem_of_In, filter_In.
  intros [_ Hne]. unfold toString in Hne.
  by rewrite String.eqb_refl in Hne.
Qed.

(** C6. For a user and an existing recipe: when the recipe is not among
    the user's favorites, adding it succeeds and adding it again at once
    ends in status 400 "Recipe already in favorites" (AlreadyFavorited),
    while removing it ends in status 400 "Recipe not in favorites"
    (NotFavorited); when it is among them, adding it is rejected in the
    same way, removing it succeeds and removing it again is rejected.
    Each rejection leaves the collections and the log as they were. *)
Theorem favorite_toggle_guarded (req : Request) (st : State)
    (recipe : Recipe) (me u : User) :
  ObjectId_parse (params_id req) = Some (_id recipe) ->
  recipes st !! _id recipe = Some recipe ->
  req_user req = Some me ->
  users st !! user_id me = Some u ->
  user_id u = user_id me ->
  (_id recipe ∉ favorites u ->
   (exists st1,
       serve addFavorite req st
       = (Sent 200 (JsonFavorite "Recipe added to favorites" true), st1)
       /\ users st1 !! user_id me
          = Some (with_favorites (favorites u ++ [_id recipe]) u)
       /\ serve addFavorite req st1
          = (Failed 400 (Error "Recipe already in favorites"),
             with_status 400 st1))
   /\ serve removeFavorite req st
      = (Failed 400 (Error "Recipe not in favorites"),
         with_status 400 st))
  /\ (_id recipe ∈ favorites u ->
      serve addFavorite req st
      = (Failed 400 (Error "Recipe already in favorites"),
         with_status 400 st)
      /\ (exists st1,
             serve removeFavorite req st
             = (Sent 200 (JsonFavorite "Recipe removed from favorites"
                                       false), st1)
             /\ serve removeFavorite req st1
                = (Failed 400 (Error "Recipe not in favorites"),
                   with_status 400 st1))).
Proof.
  intros Hid Hrec Hme Hu Hkey. split.
  - intros Hnew. apply includes_not_elem_of in Hnew. split.
    + eexists. split; [|split].
      * unfold addFavorite. unfold_M.
        rewrite Hid. simpl. rewrite Hrec, Hme. simpl. rewrite Hu. simpl.
        rewrite Hnew. simpl. reflexivity.
      * state_eq. rewrite Hkey. apply lookup_insert_eq.
      * unfold addFavorite. unfold_M.
        rewrite Hid. simpl. rewrite Hrec, Hme. simpl.
        rewrite Hkey, lookup_insert_eq. simpl.
        by rewrite includes_after_push.
    + unfold removeFavorite. unfold_M.
      rewrite Hid. simpl. rewrite Hrec, Hme. simpl. rewrite Hu. simpl.
      by rewrite Hnew.
  - intros Hold. apply includes_elem_of in Hold. split.
    + unfold addFavorite. unfold_M.
      rewrite Hid. simpl. rewrite Hrec, Hme. simpl. rewrite Hu. simpl.
      by rewrite Hold.
    + eexists. split.
      * unfold removeFavorite. unfold_M.
        rewrite Hid. simpl. rewrite Hrec, Hme. simpl. rewrite Hu. simpl.
        rewrite Hold. simpl. reflexivity.
      * unfold removeFavorite. unfold_M.
        rewrite Hid. simpl. rewrite Hrec, Hme. simpl.
        rewrite Hkey, lookup_insert_eq. simpl.
        by rewrite includes_after_filter.
Qed.

(** ** The owner reference *)

(** C8. A recipe that [createRecipe] stores has the identity of the
    request as its [createdBy].  However [updateRecipe] ends, the recipe
    it was called for is still stored with the [createdBy], the
    identifier and the reviews it had (the handler assigns title,
    ingredients, instructions, category, cookingTime and photo only), and
    every other recipe and every user is as before. *)
Theorem createdBy_is_creator_and_kept (req : Request) (st : State)
    (me : User) :
  req_user req = Some me ->
  (forall f result parsed,
      truthy_opt (body_title (body req)) = true ->
      truthy_opt (body_ingredients (body req)) = true ->
      truthy_opt (body_instructions (body req)) = true ->
      truthy_opt (body_category (body req)) = true ->
      truthy_opt (body_cookingTime (body req)) = true ->
      file req = Some f ->
      upload_answer (cloudinary st) "recipe-app/recipes" (buffer f)
      = inr result ->
      JSON_parse (default "" (body_ingredients (body req)))
      = Some parsed ->
      exists st' recipe,
        serve createRecipe req st
        = (Sent 201 (JsonRecipe (Some (plain recipe))), st')
        /\ createdBy recipe = user_id me
        /\ recipes st' !! _id recipe = Some recipe
        /\ log st' = log st ++ [CloudUpload "recipe-app/recipes" (buffer f);
                                RecipeCreate recipe])
  /\ (forall recipe out st',
      ObjectId_parse (params_id req) = Some (_id recipe) ->
      recipes st !! _id recipe = Some recipe ->
      serve updateRecipe req st = (out, st') ->
      (exists recipe',
          recipes st' !! _id recipe = Some recipe'
          /\ createdBy recipe' = createdBy recipe
          /\ _id recipe' = _id recipe
          /\ reviews recipe' = reviews recipe)
      /\ (forall id, id <> _id recipe ->
                     recipes st' !! id = recipes st !! id)
      /\ users st' = users st).
Proof.
  intros Hme. split.
  - intros f result parsed Ht Hi Hn Hc Hk Hfile Hup Hparse.
    do 2 eexists. unfold createRecipe. unfold_M.
    rewrite Ht, Hi, Hn, Hc, Hk, Hfile. simpl.
    rewrite Hup. simpl. rewrite Hparse, Hme. simpl.
    rewrite lookup_insert_eq. simpl. repeat split; state_eq.
    apply lookup_insert_eq.
  - intros recipe out st' Hid Hrec Hrun.
    unfold updateRecipe in Hrun. unfold_M.
    rewrite Hid in Hrun. simpl in Hrun. rewrite Hrec, Hme in Hrun.
    simpl in Hrun.
    destruct (String.eqb (toString (createdBy recipe))
                         (toString (user_id me)));
      repeat (simpl in Hrun;
              match type of Hrun with
              | context [file ?r] => destruct (file r)
              | context [photo_public_id ?p] => destruct (photo_public_id p)
              | context [destroy_rejects ?c ?i] =>
                  destruct (destroy_rejects c i)
              | context [upload_answer ?c ?d ?b] =>
                  destruct (upload_answer c d b)
              | context [truthy_opt ?x] => destruct (truthy_opt x)
              | context [JSON_parse ?x] => destruct (JSON_parse x)
              end);
      inversion Hrun; subst; clear Hrun;
      unfold with_recipes, with_event, with_status; simpl;
      (split; [|split; [|done]]);
      try (by exists recipe);
      try (by intros id Hne; rewrite lookup_insert_ne);
      try (eexists; split; [apply lookup_insert_eq|done]);
      done.
Qed.

End Properties.

(** ** The rating as the client sent it *)

Section RatingProperties.

Context `{Platform} `{JsValue.Coercion}.

Ltac run_rating :=
  unfold serve, when, fail, res_status, the_user, castObjectId, isValid,
    Recipe_findById, Recipe_save, new_ObjectId, modify, get, bind, ret,
    throw in *.

(** On a rating that is a number, or absent, the handler is [addReview]. *)
Lemma addReview_of_number (req : Request) (st : State) :
  (forall q, body_rating (body req) = Some q ->
             addReview_of (JsValue.Number (JsValue.Finite q)) req st
             = addReview req st)
  /\ (body_rating (body req) = None ->
      addReview_of JsValue.Undefined req st = addReview req st).
Proof.
  split.
  - intros q Hq. unfold addReview_of, addReview, rating_check_fails.
    rewrite Hq. simpl. rewrite negb_involutive. reflexivity.
  - intros Hq. unfold addReview_of, addReview, rating_check_fails.
    rewrite Hq. simpl. run_rating.
    destruct (ObjectId_parse (params_id req)); simpl; [|done].
    by destruct (recipes st !! o).
Qed.

Lemma num_lt_spec (a b : Js.number) : Js.num_lt a b = true <-> (a < b)%Q.
Proof.
  unfold Js.num_lt. rewrite negb_true_iff. split.
  - intros Hle. apply Qnot_le_lt. intros Hba.
    apply Qle_bool_iff in Hba. congruence.
  - intros Hlt. destruct (Qle_bool b a) eqn:Hle; [|done].
    apply Qle_bool_iff in Hle. by apply Qlt_not_le in Hlt.
Qed.

Lemma num_lt_false (a b : Js.number) : (b <= a)%Q -> Js.num_lt a b = false.
Proof.
  intros Hle. destruct (Js.num_lt a b) eqn:Hlt; [|done].
  apply num_lt_spec in Hlt. by apply Qlt_not_le in Hlt.
Qed.

Lemma rating_check_fails_out_of_range (rating : JsValue.value) :
  JsValue.ToBoolean rating = false
  \/ (exists q, JsValue.ToNumber rating = JsValue.Finite q
                /\ ((q < 1 # 1)%Q \/ (10 # 1 < q)%Q))
  \/ (exists negative, JsValue.ToNumber rating = JsValue.Infinite negative) ->
  rating_check_fails rating = true.
Proof.
  unfold rating_check_fails.
  intros [->|[(q & -> & [Hlt|Hlt])|([|] & ->)]]; simpl; try done;
    try apply num_lt_spec in Hlt;
    destruct (negb (JsValue.ToBoolean rating)); simpl;
    rewrite ?Hlt, ?orb_true_r; done.
Qed.

Lemma rating_check_passes_in_range (rating : JsValue.value) (q : Js.number) :
  JsValue.ToBoolean rating = true ->
  JsValue.ToNumber rating = JsValue.Finite q ->
  (1 # 1 <= q)%Q -> (q <= 10 # 1)%Q ->
  rating_check_fails rating = false.
Proof.
  unfold rating_check_fails. intros -> -> Hlo Hhi. simpl.
  by rewrite !num_lt_false.
Qed.

Lemma rating_check_passes_NaN (rating : JsValue.value) :
  JsValue.ToBoolean rating = true ->
  JsValue.ToNumber rating = JsValue.NaN ->
  rating_check_fails rating = false.
Proof. unfold rating_check_fails. by intros -> ->. Qed.

(** C7, on every rating that a JSON body can carry, and at the failing
    input.  On an existing recipe: a rating that is falsy (absent, null,
    false, 0, the empty string) or whose number lies outside [1, 10] (11,
    "11", an infinity) ends in status 400 "Rating must be between 1 and
    10", and a description that is empty after trimming ends in status 400
    with that message or "Description is required", with nothing written;
    a rating whose number lies in [1, 10] (1 and 10 included), with a
    description that has content, from a user who has not reviewed the
    recipe, ends in status 201 with one review appended to the stored
    recipe, carrying that number, the description and the caller.  But a
    truthy rating that is no number, such as the string "abc", is not
    rejected by the rating check: both comparisons are false on NaN, so the
    handler goes on to the description check, to the duplicate check and
    to the save, and never answers "Rating must be between 1 and 10". *)
Theorem rating_check_misses_non_numbers (sent : JsValue.value)
    (req : Request) (st : State) (recipe : Recipe) :
  ObjectId_parse (params_id req) = Some (_id recipe) ->
  recipes st !! _id recipe = Some recipe ->
  (JsValue.ToBoolean sent = false
   \/ (exists q, JsValue.ToNumber sent = JsValue.Finite q
                 /\ ((q < 1 # 1)%Q \/ (10 # 1 < q)%Q))
   \/ (exists negative,
          JsValue.ToNumber sent = JsValue.Infinite negative) ->
   serve (addReview_of sent) req st
   = (Failed 400 (Error "Rating must be between 1 and 10"),
      with_status 400 st))
  /\ (forall d,
      body_description (body req) = Some d ->
      Js.trim d = "" ->
      exists message,
        serve (addReview_of sent) req st
        = (Failed 400 (Error message), with_status 400 st)
        /\ (message = "Rating must be between 1 and 10"
            \/ message = "Description is required"))
  /\ (forall q d me,
      JsValue.ToBoolean sent = true ->
      JsValue.ToNumber sent = JsValue.Finite q ->
      (1 # 1 <= q)%Q /\ (q <= 10 # 1)%Q ->
      body_description (body req) = Some d ->
      has_content d = true ->
      req_user req = Some me ->
      reviewed_by me (reviews recipe) = false ->
      exists st' recipe' review,
        serve (addReview_of sent) req st
        = (Sent 201 (JsonRecipe (Some (mkRecipeJson recipe' None))), st')
        /\ recipes st' !! _id recipe = Some recipe'
        /\ reviews recipe' = reviews recipe ++ [review]
        /\ (rating review, description review, user review,
            replies review)
           = (q, d, user_id me, []))
  /\ (JsValue.ToBoolean sent = true ->
      JsValue.ToNumber sent = JsValue.NaN ->
      (forall d,
          body_description (body req) = Some d ->
          Js.trim d = "" ->
          serve (addReview_of sent) req st
          = (Failed 400 (Error "Description is required"),
             with_status 400 st))
      /\ (forall d me,
          body_description (body req) = Some d ->
          has_content d = true ->
          req_user req = Some me ->
          (reviewed_by me (reviews recipe) = true ->
           serve (addReview_of sent) req st
           = (Failed 400 (Error "You have already reviewed this recipe"),
              with_status 400 st))
          /\ (reviewed_by me (reviews recipe) = false ->
              exists st',
                serve (addReview_of sent) req st
                = (Failed 200 CastError, st')
                /\ recipes st' = recipes st
                /\ users st' = users st
                /\ log st' = log st))).
Proof.
  intros Hid Hrec. split; [|split; [|split]].
  - intros Hout. apply rating_check_fails_out_of_range in Hout.
    unfold addReview_of. run_rating. rewrite Hid. simpl.
    by rewrite Hrec, Hout.
  - intros d Hd Htrim.
    assert (Hdr : description_rejected (Some d) = true).
    { apply description_rejected_iff. by apply trim_empty_iff. }
    destruct (rating_check_fails sent) eqn:Hr; eexists;
      (split; [|by (left + right)]);
      unfold addReview_of; run_rating; rewrite Hid; simpl;
      by rewrite Hrec, Hr, ?Hd, ?Hdr.
  - intros q d me Ht Hn [Hlo Hhi] Hd Hc Hme Hnew.
    pose proof (rating_check_passes_in_range sent q Ht Hn Hlo Hhi) as Hr.
    apply description_accepted in Hc. unfold reviewed_by in Hnew.
    do 3 eexists. split; [|split; [|split]].
    + unfold addReview_of. run_rating. rewrite Hid. simpl.
      rewrite Hrec, Hr, Hd, Hc, Hme. simpl. rewrite Hnew. simpl.
      rewrite Hn. simpl. rewrite lookup_insert_eq. simpl. reflexivity.
    + simpl. apply lookup_insert_eq.
    + reflexivity.
    + reflexivity.
  - intros Ht Hn.
    pose proof (rating_check_passes_NaN sent Ht Hn) as Hr. split.
    + intros d Hd Htrim.
      assert (Hdr : description_rejected (Some d) = true).
      { apply description_rejected_iff. by apply trim_empty_iff. }
      unfold addReview_of. run_rating. rewrite Hid. simpl.
      by rewrite Hrec, Hr, Hd, Hdr.
    + intros d me Hd Hc Hme. apply description_accepted in Hc.
      unfold reviewed_by. split.
      * intros Hdup. unfold addReview_of. run_rating. rewrite Hid. simpl.
        rewrite Hrec, Hr, Hd, Hc, Hme. simpl. by rewrite Hdup.
      * intros Hnew. eexists. split.
        -- unfold addReview_of. run_rating. rewrite Hid. simpl.
           rewrite Hrec, Hr, Hd, Hc, Hme. simpl. rewrite Hnew. simpl.
           rewrite Hn. reflexivity.
        -- by repeat split.
Qed.

End RatingProperties.

(** ** Further properties: the auth gate, the other routes, the app *)

Section MoreProperties.

Context `{Platform}.

Ltac run_M :=
  unfold serve, serve_of, via, app, errorMiddleware, when, fail, res_status,
    the_user, castObjectId, isValid, Recipe_findById, User_findById,
    Recipe_find, Recipe_find_createdBy, Recipe_save, Recipe_deleteOne,
    User_save, User_findByIdAndUpdate, Recipe_create, new_ObjectId,
    cloudinary_destroy, cloudinary_upload, try_catch, modify, get, bind,
    ret, throw in *.

Ltac fields :=
  unfold with_recipes, with_users, with_event, with_status, with_next_oid;
  simpl; rewrite <- ?app_assoc; try done.

(** *** middleware/auth.js *)

(** X1. Without an [Authorization] header that begins with "Bearer", the
    gate sets status 401 and throws "Not authorized, no token"; a route
    behind the gate then ends in the same way whatever its handler is, so
    the handler is not run and nothing is read or written. *)
Theorem protect_requires_bearer (req : Request) (st : State)
    (h : Request -> M Json) :
  bearer req = false ->
  protect req st
  = (Thrown (Error "Not authorized, no token"), with_status 401 st)
  /\ serve (via protect h) req st
     = (Failed 401 (Error "Not authorized, no token"), with_status 401 st).
Proof.
  unfold bearer, protect. intros Hb. run_M.
  destruct (headers_authorization req) as [a|]; [rewrite Hb|]; by split.
Qed.

(** X2. With such a header the gate ends in one of two ways only.  Either
    it hands on the request with [req.user] set to a stored user, stripped
    of its password, and leaves the state as it is: then the second piece
    of the header is a token that [jwt.verify] accepts and whose [id] names
    that user.  Or it sets status 401 and throws "Not authorized, token
    failed": a missing token, a token that does not verify, a payload
    without [id], an [id] that is no ObjectId and an [id] that names no
    user all end in this one message, with nothing written. *)
Theorem protect_resolves_or_token_failed (req : Request) (st : State) :
  bearer req = true ->
  (exists authorization token id oid u,
      headers_authorization req = Some authorization
      /\ Js.split_space authorization !! 1%nat = Some token
      /\ jwt_verify token = Some (Some id)
      /\ ObjectId_parse id = Some oid
      /\ users st !! oid = Some u
      /\ password (without_password u) = None
      /\ protect req st = (Returned (with_user (without_password u) req), st))
  \/ protect req st
     = (Thrown (Error "Not authorized, token failed"), with_status 401 st).
Proof.
  unfold bearer, protect. intros Hb. run_M.
  destruct (headers_authorization req) as [a|]; [|done]. rewrite Hb.
  destruct (Js.split_space a !! 1%nat) as [token|] eqn:Htoken; [|by right].
  destruct (jwt_verify token) as [[id|]|] eqn:Hjwt; simpl; try by right.
  destruct (Js.truthy id) eqn:Hid; simpl; [|by right].
  destruct (ObjectId_parse id) as [oid|] eqn:Hoid; simpl; [|by right].
  destruct (users st !! oid) as [u|] eqn:Hu; simpl; [|by right].
  left. exists a, token, id, oid, u. by repeat split.
Qed.

Lemma string_app_cons (x : ascii) (a b : string) :
  String x a +:+ b = String x (a +:+ b).
Proof. reflexivity. Qed.

Lemma string_app_assoc (a b c : string) : (a +:+ b) +:+ c = a +:+ (b +:+ c).
Proof.
  induction a as [|x a IH]; [done|]. by rewrite !string_app_cons, IH.
Qed.

Lemma string_app_nil_r (a : string) : a +:+ "" = a.
Proof.
  induction a as [|x a IH]; [done|]. by rewrite string_app_cons, IH.
Qed.

Lemma string_rev_app (a b : string) :
  String.rev_app a b = String.rev a +:+ b.
Proof.
  revert b. induction a as [|x a IH]; intros b; [done|].
  unfold String.rev. simpl. rewrite (IH (String x b)), (IH (String x "")).
  by rewrite string_app_assoc.
Qed.

Lemma string_rev_cons (x : ascii) (a : string) :
  String.rev (String x a) = String.rev a +:+ String x "".
Proof. unfold String.rev at 1. simpl. apply string_rev_app. Qed.

Lemma split_space_aux_spaceless (cur s : string) :
  spaceless s = true ->
  Js.split_space_aux cur s = [String.rev cur +:+ s].
Proof.
  revert cur. induction s as [|c s IH]; intros cur Hs; simpl in *.
  - by rewrite string_app_nil_r.
  - apply andb_true_iff in Hs as [Hc Hs]. apply negb_true_iff in Hc.
    rewrite Hc, IH by done. by rewrite string_rev_cons, string_app_assoc.
Qed.

Lemma split_space_aux_first (cur a b : string) :
  spaceless a = true ->
  Js.split_space_aux cur (a +:+ String " "%char b)
  = (String.rev cur +:+ a) :: Js.split_space_aux "" b.
Proof.
  revert cur. induction a as [|c a IH]; intros cur Ha; simpl in *.
  - by rewrite string_app_nil_r.
  - apply andb_true_iff in Ha as [Hc Ha]. apply negb_true_iff in Hc.
    rewrite Hc, IH by done. by rewrite string_rev_cons, string_app_assoc.
Qed.

Lemma prefix_app (p a b : string) :
  String.prefix p a = true -> String.prefix p (a +:+ b) = true.
Proof.
  revert a. induction p as [|c p IH]; intros a Hp;
    [by destruct (a +:+ b)|].
  destruct a as [|x a]; simpl in *; [done|].
  destruct (Ascii.ascii_dec c x); [by apply IH|done].
Qed.

(** X3. The gate tests the scheme of the header by prefix and takes the
    text between the first and the second space as the token: a header
    [scheme token] whose scheme begins with "Bearer" (be it "Bearer" or
    longer) is accepted when the token verifies and its [id] names a stored
    user, and [req.user] is that user without the password. *)
Theorem protect_accepts_bearer_token (req : Request) (st : State)
    (scheme token id : string) (oid : ObjectId) (u : User) :
  headers_authorization req = Some (scheme +:+ " " +:+ token) ->
  String.prefix "Bearer" scheme = true ->
  spaceless scheme = true ->
  spaceless token = true ->
  jwt_verify token = Some (Some id) ->
  id <> "" ->
  ObjectId_parse id = Some oid ->
  users st !! oid = Some u ->
  protect req st = (Returned (with_user (without_password u) req), st).
Proof.
  intros Hh Hp Hs Ht Hjwt Hid Hoid Hu. unfold protect. run_M.
  rewrite Hh. rewrite (prefix_app _ _ _ Hp).
  assert (Htruthy : Js.truthy (scheme +:+ " " +:+ token) = true).
  { destruct scheme; [done|]. done. }
  rewrite Htruthy. simpl.
  unfold Js.split_space.
  change (scheme +:+ " " +:+ token) with (scheme +:+ String " "%char token).
  rewrite split_space_aux_first by done.
  rewrite split_space_aux_spaceless by done.
  change (String.rev "" +:+ token) with token. simpl.
  rewrite Hjwt. simpl.
  assert (Hidt : Js.truthy id = true).
  { unfold Js.truthy. apply negb_true_iff. by apply String.eqb_neq. }
  rewrite Hidt. simpl. rewrite Hoid. simpl. by rewrite Hu.
Qed.

(** *** routes/recipes.js: identifiers and lookups *)

(** X4. Every handler that takes a recipe identifier checks its syntax
    before anything else: on a malformed identifier it sets status 400 and
    throws "Invalid recipe ID", with no lookup, no external call and no
    write; [addReply] does the same for a malformed review identifier, with
    "Invalid review ID". *)
Theorem malformed_id_is_rejected (req : Request) (st : State) :
  (ObjectId_parse (params_id req) = None ->
   Forall (fun h => serve h req st
                    = (Failed 400 (Error "Invalid recipe ID"),
                       with_status 400 st))
          [getRecipe; updateRecipe; deleteRecipe; addReview; addReply;
           addFavorite; removeFavorite])
  /\ (forall id,
      ObjectId_parse (params_id req) = Some id ->
      ObjectId_parse (params_reviewId req) = None ->
      serve addReply req st
      = (Failed 400 (Error "Invalid review ID"), with_status 400 st)).
Proof.
  split.
  - intros Hid.
    repeat apply Forall_cons_2; try apply Forall_nil_2;
      unfold getRecipe, updateRecipe, deleteRecipe, addReview, addReply,
        addFavorite, removeFavorite; run_M; by rewrite Hid.
  - intros id Hid Hrid. unfold addReply. run_M. by rewrite Hid, Hrid.
Qed.

(** X5. On a well-formed identifier that names no stored recipe, each of
    these handlers sets status 404 and throws "Recipe not found", again
    with nothing else done: the caller, the body and the file are not
    looked at. *)
Theorem missing_recipe_is_not_found (req : Request) (st : State)
    (id : ObjectId) :
  ObjectId_parse (params_id req) = Some id ->
  recipes st !! id = None ->
  Forall (fun h => serve h req st
                   = (Failed 404 (Error "Recipe not found"),
                      with_status 404 st))
         [getRecipe; updateRecipe; deleteRecipe; addReview; addFavorite;
          removeFavorite]
  /\ (is_Some (ObjectId_parse (params_reviewId req)) ->
      serve addReply req st
      = (Failed 404 (Error "Recipe not found"), with_status 404 st)).
Proof.
  intros Hid Hnone. split.
  - repeat apply Forall_cons_2; try apply Forall_nil_2;
      unfold getRecipe, updateRecipe, deleteRecipe, addReview,
        addFavorite, removeFavorite; run_M;
      rewrite Hid; simpl; by rewrite Hnone.
  - intros [rid Hrid]. unfold addReply. run_M.
    rewrite Hid, Hrid. simpl. by rewrite Hnone.
Qed.

(** *** routes/recipes.js: replies *)

(** X6. [addReply] looks the review up before it validates the
    description: when the recipe has no review with the given identifier
    it sets status 404 and throws "Review not found", whatever the
    description is; when the review exists and the description is absent or
    empty after trimming it sets status 400 and throws "Reply description
    is required".  Neither writes anything. *)
Theorem addReply_rejections (req : Request) (st : State) (recipe : Recipe)
    (reviewId : ObjectId) :
  ObjectId_parse (params_id req) = Some (_id recipe) ->
  recipes st !! _id recipe = Some recipe ->
  ObjectId_parse (params_reviewId req) = Some reviewId ->
  (reviews_id reviewId (reviews recipe) = None ->
   serve addReply req st
   = (Failed 404 (Error "Review not found"), with_status 404 st))
  /\ (is_Some (reviews_id reviewId (reviews recipe)) ->
      description_rejected (body_description (body req)) = true ->
      serve addReply req st
      = (Failed 400 (Error "Reply description is required"),
         with_status 400 st)).
Proof.
  intros Hid Hrec Hrid. split.
  - intros Hnone. unfold addReply. run_M.
    rewrite Hid, Hrid. simpl. by rewrite Hrec, Hnone.
  - intros [rv Hrv] Hd. unfold addReply. run_M.
    rewrite Hid, Hrid. simpl. by rewrite Hrec, Hrv, Hd.
Qed.

Lemma push_reply_at_core (reviewId : ObjectId) (rp : Reply)
    (l : list Review) :
  map (fun rv => (review_id rv, rating rv, description rv, user rv))
      (push_reply_at reviewId rp l)
  = map (fun rv => (review_id rv, rating rv, description rv, user rv)) l.
Proof.
  induction l as [|rv l IH]; [done|]. simpl.
  destruct (String.eqb (toString (review_id rv)) (toString reviewId));
    simpl; [done|by rewrite IH].
Qed.

Lemma push_reply_at_other (reviewId other : ObjectId) (rp : Reply)
    (l : list Review) :
  other <> reviewId ->
  reviews_id other (push_reply_at reviewId rp l) = reviews_id other l.
Proof.
  intros Hne. unfold reviews_id. induction l as [|rv l IH]; [done|]. simpl.
  destruct (String.eqb_spec (toString (review_id rv)) (toString reviewId))
    as [Heq|Hneq]; simpl; [|by rewrite IH].
  unfold toString in *. rewrite Heq.
  destruct (String.eqb_spec reviewId other); [congruence|done].
Qed.

Lemma push_reply_at_replies (reviewId : ObjectId) (rp : Reply)
    (l : list Review) :
  is_Some (reviews_id reviewId l) ->
  length (concat (map replies (push_reply_at reviewId rp l)))
  = S (length (concat (map replies l))).
Proof.
  unfold reviews_id. induction l as [|rv l IH]; simpl.
  - by intros [? ?].
  - destruct (String.eqb (toString (review_id rv)) (toString reviewId));
      simpl; intros Hsome.
    + rewrite !length_app. simpl. lia.
    + rewrite !length_app, IH by done. lia.
Qed.

(** X7. An accepted reply changes its recipe in one place only.  The
    stored recipe keeps its fields, and its reviews keep their number,
    order, identifiers, ratings, descriptions and authors; a review with
    another identifier keeps its replies; over all reviews exactly one
    reply is added, written by the caller. *)
Theorem addReply_changes_one_review (req : Request) (st : State)
    (recipe : Recipe) (me : User) (d : string) (reviewId : ObjectId)
    (review : Review) :
  ObjectId_parse (params_id req) = Some (_id recipe) ->
  recipes st !! _id recipe = Some recipe ->
  req_user req = Some me ->
  body_description (body req) = Some d ->
  has_content d = true ->
  ObjectId_parse (params_reviewId req) = Some reviewId ->
  reviews_id reviewId (reviews recipe) = Some review ->
  exists st' recipe',
    serve addReply req st
    = (Sent 201 (JsonRecipe (Some (plain recipe'))), st')
    /\ recipes st' !! _id recipe = Some recipe'
    /\ with_reviews (reviews recipe) recipe' = recipe
    /\ map (fun rv => (review_id rv, rating rv, description rv, user rv))
           (reviews recipe')
       = map (fun rv => (review_id rv, rating rv, description rv, user rv))
             (reviews recipe)
    /\ (forall other, other <> reviewId ->
                      reviews_id other (reviews recipe')
                      = reviews_id other (reviews recipe))
    /\ reviews_id reviewId (reviews recipe')
       = Some (push_reply (mkReply (ObjectId_fresh (oid_counter st)) d
                                   (user_id me)) review)
    /\ length (concat (map replies (reviews recipe')))
       = S (length (concat (map replies (reviews recipe))))
    /\ users st' = users st.
Proof.
  intros Hid Hrec Hme Hd Hc Hrid Hrv.
  apply description_accepted in Hc.
  exists (with_status 201
            (with_recipes
               (insert (_id recipe)
                  (with_reviews
                     (push_reply_at reviewId
                        (mkReply (ObjectId_fresh (oid_counter st)) d
                                 (user_id me)) (reviews recipe)) recipe))
               (with_event
                  (RecipeSave
                     (with_reviews
                        (push_reply_at reviewId
                           (mkReply (ObjectId_fresh (oid_counter st)) d
                                    (user_id me)) (reviews recipe)) recipe))
                  (with_next_oid (with_status 200 st))))).
  eexists. split; [|split; [|split; [|split; [|split; [|split; [|split]]]]]].
  - unfold addReply. run_M.
    rewrite Hid, Hrid. simpl. rewrite Hrec, Hrv, Hd, Hc, Hme. simpl.
    rewrite lookup_insert_eq. simpl. reflexivity.
  - fields. apply lookup_insert_eq.
  - by destruct recipe.
  - apply push_reply_at_core.
  - intros other Hne. by apply push_reply_at_other.
  - simpl. by rewrite reviews_id_push_reply_at, Hrv.
  - simpl. apply push_reply_at_replies. by rewrite Hrv.
  - done.
Qed.

(** *** routes/recipes.js: creating a recipe *)

(** X8. [createRecipe] turns a request down before it does anything when
    a field is absent or empty or no photo came with it: status 400 and
    "Please fill all fields and upload a photo", with no upload and
    nothing stored. *)
Theorem createRecipe_requires_all_fields (req : Request) (st : State) :
  truthy_opt (body_title (body req)) = false
  \/ truthy_opt (body_ingredients (body req)) = false
  \/ truthy_opt (body_instructions (body req)) = false
  \/ truthy_opt (body_category (body req)) = false
  \/ truthy_opt (body_cookingTime (body req)) = false
  \/ file req = None ->
  serve createRecipe req st
  = (Failed 400 (Error "Please fill all fields and upload a photo"),
     with_status 400 st).
Proof.
  intros Hmiss. unfold createRecipe. run_M.
  assert (Hguard :
    (negb (truthy_opt (body_title (body req)))
     || negb (truthy_opt (body_ingredients (body req)))
     || negb (truthy_opt (body_instructions (body req)))
     || negb (truthy_opt (body_category (body req)))
     || negb (truthy_opt (body_cookingTime (body req)))
     || match file req with Some _ => false | None => true end) = true).
  { destruct Hmiss as [->|[->|[->|[->|[->| ->]]]]]; simpl;
      rewrite ?orb_true_r; done. }
  simpl. by rewrite Hguard.
Qed.

(** X9. Once the fields are there, [createRecipe] uploads first and stores
    afterwards, and any failure on the way ends in status 500 "Failed to
    create recipe" with no recipe stored: when the upload fails, and also
    when the upload succeeded but the ingredients field is no JSON, in
    which case the uploaded asset is left behind. *)
Theorem createRecipe_failures_store_nothing (req : Request) (st : State)
    (f : File) :
  truthy_opt (body_title (body req)) = true ->
  truthy_opt (body_ingredients (body req)) = true ->
  truthy_opt (body_instructions (body req)) = true ->
  truthy_opt (body_category (body req)) = true ->
  truthy_opt (body_cookingTime (body req)) = true ->
  file req = Some f ->
  (exists e, upload_answer (cloudinary st) "recipe-app/recipes" (buffer f)
             = inl e)
  \/ JSON_parse (default "" (body_ingredients (body req))) = None ->
  exists st',
    serve createRecipe req st
    = (Failed 500 (Error "Failed to create recipe"), st')
    /\ recipes st' = recipes st
    /\ users st' = users st
    /\ log st' = log st ++ [CloudUpload "recipe-app/recipes" (buffer f)].
Proof.
  intros Ht Hi Hn Hc Hk Hfile Hbad.
  destruct (upload_answer (cloudinary st) "recipe-app/recipes" (buffer f))
    as [e|result] eqn:Hup.
  - eexists. unfold createRecipe. run_M.
    rewrite Ht, Hi, Hn, Hc, Hk, Hfile. simpl. rewrite Hup. simpl.
    repeat split; fields.
  - destruct Hbad as [[e He]|Hparse]; [done|].
    eexists. unfold createRecipe. run_M.
    rewrite Ht, Hi, Hn, Hc, Hk, Hfile. simpl. rewrite Hup. simpl.
    rewrite Hparse. simpl. repeat split; fields.
Qed.

(** X10. A recipe that was created can be read back.  After a successful
    [createRecipe], [getRecipe] on the identifier of the new recipe answers
    with the submitted title, instructions, category and cooking time, the
    parsed ingredients, the handle of the uploaded photo, the caller as
    owner and no reviews; a recipe that was stored before under another
    identifier is still stored. *)
Theorem created_recipe_reads_back (req req' : Request) (st : State)
    (me : User) (f : File) (result : UploadResult) (parsed : list string) :
  req_user req = Some me ->
  truthy_opt (body_title (body req)) = true ->
  truthy_opt (body_ingredients (body req)) = true ->
  truthy_opt (body_instructions (body req)) = true ->
  truthy_opt (body_category (body req)) = true ->
  truthy_opt (body_cookingTime (body req)) = true ->
  file req = Some f ->
  upload_answer (cloudinary st) "recipe-app/recipes" (buffer f)
  = inr result ->
  JSON_parse (default "" (body_ingredients (body req))) = Some parsed ->
  ObjectId_parse (params_id req') = Some (ObjectId_fresh (oid_counter st)) ->
  req_user req' = None ->
  let created :=
    mkRecipe (ObjectId_fresh (oid_counter st))
             (default "" (body_title (body req))) parsed
             (default "" (body_instructions (body req)))
             (default "" (body_category (body req)))
             (default "" (body_cookingTime (body req)))
             (Some (mkPhoto (result_public_id result) (secure_url result)))
             (user_id me) [] in
  exists st1,
    serve createRecipe req st
    = (Sent 201 (JsonRecipe (Some (plain created))), st1)
    /\ serve getRecipe req' st1
       = (Sent 200 (JsonRecipe (Some (plain created))), with_status 200 st1)
    /\ (forall id, id <> ObjectId_fresh (oid_counter st) ->
                   recipes st1 !! id = recipes st !! id).
Proof.
  intros Hme Ht Hi Hn Hc Hk Hfile Hup Hparse Hid' Hnone created.
  eexists. split; [|split].
  - unfold createRecipe. run_M.
    rewrite Ht, Hi, Hn, Hc, Hk, Hfile. simpl.
    rewrite Hup. simpl. rewrite Hparse, Hme. simpl.
    rewrite lookup_insert_eq. simpl. reflexivity.
  - unfold getRecipe. run_M. rewrite Hid'. simpl.
    rewrite lookup_insert_eq. simpl. by rewrite Hnone.
  - intros id Hne. fields. by rewrite lookup_insert_ne.
Qed.

(** *** routes/recipes.js: updating and deleting a recipe *)

Lemma or_else_partial_update (sent : option string) (old : string) :
  partial_update sent old (Js.or_else sent old).
Proof.
  unfold partial_update, Js.or_else, Js.truthy.
  destruct sent as [s|]; [|done].
  destruct (decide (s = "")) as [->|Hne]; [done|].
  by destruct (String.eqb_spec s "").
Qed.

Lemma or_else_falsy (sent : option string) (old : string) :
  truthy_opt sent = false -> Js.or_else sent old = old.
Proof.
  unfold truthy_opt, Js.or_else. destruct sent; [|done].
  intros Hs. by rewrite Hs.
Qed.

(** X11. An update by the owner that carries no photo makes no external
    call and saves once.  Each of title, instructions, category and
    cooking time takes the value that was sent if one was sent and is not
    empty, and keeps its value otherwise, so a field cannot be cleared; the
    photo is kept; the ingredients are kept unless a non-empty field was
    sent.  When nothing is sent at all the stored recipes are what they
    were. *)
Theorem updateRecipe_is_partial (req : Request) (st : State)
    (recipe : Recipe) (me : User) :
  ObjectId_parse (params_id req) = Some (_id recipe) ->
  recipes st !! _id recipe = Some recipe ->
  req_user req = Some me ->
  createdBy recipe = user_id me ->
  file req = None ->
  truthy_opt (body_ingredients (body req)) = false ->
  exists st' recipe',
    serve updateRecipe req st
    = (Sent 200 (JsonRecipe (Some (plain recipe'))), st')
    /\ recipes st' = <[_id recipe := recipe']> (recipes st)
    /\ log st' = log st ++ [RecipeSave recipe']
    /\ partial_update (body_title (body req)) (title recipe)
                      (title recipe')
    /\ partial_update (body_instructions (body req)) (instructions recipe)
                      (instructions recipe')
    /\ partial_update (body_category (body req)) (category recipe)
                      (category recipe')
    /\ partial_update (body_cookingTime (body req)) (cookingTime recipe)
                      (cookingTime recipe')
    /\ photo recipe' = photo recipe
    /\ ingredients recipe' = ingredients recipe
    /\ (truthy_opt (body_title (body req)) = false ->
        truthy_opt (body_instructions (body req)) = false ->
        truthy_opt (body_category (body req)) = false ->
        truthy_opt (body_cookingTime (body req)) = false ->
        recipes st' = recipes st).
Proof.
  intros Hid Hrec Hme Hown Hfile Hing.
  assert (Heq : String.eqb (createdBy recipe) (user_id me) = true)
    by (by apply String.eqb_eq).
  do 2 eexists. split.
  { unfold updateRecipe. run_M.
    rewrite Hid. simpl. rewrite Hrec, Hme. simpl.
    unfold toString. rewrite Heq, Hfile, Hing. simpl.
    rewrite lookup_insert_eq. simpl. reflexivity. }
  split; [by fields|]. split; [by fields|]. simpl.
  repeat (split; [by apply or_else_partial_update || done|]).
  intros Ht Hn Hc Hk. fields.
  rewrite !or_else_falsy by done.
  apply insert_id. by destruct recipe.
Qed.

(** X12. A recipe that its owner deleted is gone and only it is gone:
    reading it and deleting it again both end in status 404 "Recipe not
    found", while every other recipe and every user record is stored as
    before. *)
Theorem deleted_recipe_is_gone (req req' : Request) (st : State)
    (recipe : Recipe) (me : User) :
  ObjectId_parse (params_id req) = Some (_id recipe) ->
  recipes st !! _id recipe = Some recipe ->
  req_user req = Some me ->
  createdBy recipe = user_id me ->
  release_resolves st (photo recipe) ->
  ObjectId_parse (params_id req') = Some (_id recipe) ->
  exists st1,
    serve deleteRecipe req st
    = (Sent 200 (JsonMessage "Recipe deleted"), st1)
    /\ recipes st1 !! _id recipe = None
    /\ (forall id, id <> _id recipe -> recipes st1 !! id = recipes st !! id)
    /\ users st1 = users st
    /\ serve getRecipe req' st1
       = (Failed 404 (Error "Recipe not found"), with_status 404 st1)
    /\ serve deleteRecipe req st1
       = (Failed 404 (Error "Recipe not found"), with_status 404 st1).
Proof.
  intros Hid Hrec Hme Hown Hrel Hid'.
  assert (Heq : String.eqb (createdBy recipe) (user_id me) = true)
    by (by apply String.eqb_eq).
  unfold release_resolves in Hrel.
  destruct (photo_public_id (photo recipe)) as [pid|] eqn:Hpid;
    eexists; (split; [|split; [|split; [|split; [|split]]]]);
    try (unfold deleteRecipe; run_M;
         rewrite Hid; simpl; rewrite Hrec, Hme; simpl;
         unfold toString; rewrite Heq, Hpid; simpl;
         rewrite ?Hrel; simpl; reflexivity);
    try (fields; apply lookup_delete_eq);
    try (intros id Hne; fields; by apply lookup_delete_ne);
    try done;
    try (unfold getRecipe; run_M; rewrite Hid'; simpl;
         by rewrite lookup_delete_eq);
    try (unfold deleteRecipe; run_M; rewrite Hid; simpl;
         by rewrite lookup_delete_eq).
Qed.

Lemma populate_after_delete (m : gmap string Recipe) (id : ObjectId)
    (ids : list ObjectId) :
  omap (fun i => delete id m !! i) ids
  = omap (fun i => m !! i)
         (List.filter (fun i => negb (String.eqb (toString i) (toString id)))
                      ids).
Proof.
  unfold toString. induction ids as [|i ids IH]; [done|]. csimpl.
  destruct (String.eqb_spec i id) as [->|Hne]; csimpl.
  - by rewrite lookup_delete_eq.
  - rewrite lookup_delete_ne by done. by rewrite IH.
Qed.

(** X13. Deleting a recipe does not look at the users: a user who had the
    recipe among the favorites keeps its identifier there.  The favorites
    listing of that user then answers with the recipes of the remaining
    identifiers, that is without the deleted one. *)
Theorem deleted_recipe_stays_in_favorites (req reqf : Request) (st : State)
    (recipe : Recipe) (me fan : User) :
  ObjectId_parse (params_id req) = Some (_id recipe) ->
  recipes st !! _id recipe = Some recipe ->
  req_user req = Some me ->
  createdBy recipe = user_id me ->
  release_resolves st (photo recipe) ->
  req_user reqf = Some fan ->
  users st !! user_id fan = Some fan ->
  _id recipe ∈ favorites fan ->
  exists st1,
    serve deleteRecipe req st
    = (Sent 200 (JsonMessage "Recipe deleted"), st1)
    /\ users st1 !! user_id fan = Some fan
    /\ serve getFavorites reqf st1
       = (Sent 200
            (JsonRecipes
               (map plain
                  (populate_favorites st
                     (List.filter
                        (fun i => negb (String.eqb (toString i)
                                                   (toString (_id recipe))))
                        (favorites fan))))),
          with_status 200 st1).
Proof.
  intros Hid Hrec Hme Hown Hrel Hfan Hstored Hin.
  assert (Heq : String.eqb (createdBy recipe) (user_id me) = true)
    by (by apply String.eqb_eq).
  unfold release_resolves in Hrel.
  destruct (photo_public_id (photo recipe)) as [pid|] eqn:Hpid;
    eexists; (split; [|split]);
    try (unfold deleteRecipe; run_M;
         rewrite Hid; simpl; rewrite Hrec, Hme; simpl;
         unfold toString; rewrite Heq, Hpid; simpl;
         rewrite ?Hrel; simpl; reflexivity);
    try done;
    unfold getFavorites, populate_favorites; run_M; rewrite Hfan; simpl;
    rewrite Hstored; simpl; by rewrite populate_after_delete.
Qed.

(** *** routes/recipes.js: listings *)

Lemma elem_of_stored (m : gmap string Recipe) (r : Recipe) :
  r ∈ (map_to_list m).*2 <-> exists id, m !! id = Some r.
Proof.
  rewrite list_elem_of_fmap. split.
  - intros ([id r'] & -> & Hin). exists id. by apply elem_of_map_to_list.
  - intros (id & Hid). exists (id, r). split; [done|].
    by apply elem_of_map_to_list.
Qed.

Lemma elem_of_List_filter {A} (p : A -> bool) (l : list A) (x : A) :
  x ∈ List.filter p l <-> x ∈ l /\ p x = true.
Proof. by rewrite !list_elem_of_In, filter_In. Qed.

Lemma elem_of_matching (req : Request) (st : State) (r : Recipe) :
  r ∈ matching req st
  <-> (exists id, recipes st !! id = Some r)
      /\ (forall c, query_category req = Some c -> c <> "" ->
                    category r = c).
Proof.
  unfold matching. destruct (query_category req) as [c|].
  - unfold Js.truthy. destruct (String.eqb_spec c "") as [->|Hne]; simpl.
    + rewrite elem_of_stored. split; [|by intros [? _]].
      intros Hs. split; [done|]. by intros c [= <-].
    + rewrite elem_of_List_filter, elem_of_stored, String.eqb_eq. split.
      * intros [Hs Hc]. split; [done|]. by intros c' [= <-].
      * intros [Hs Hc]. split; [done|]. by apply Hc.
  - rewrite elem_of_stored. split; [|by intros [? _]].
    intros Hs. by split.
Qed.

(** X14. The listing answers with stored recipes only and filters by the
    category of the query: with a non-empty [category] it holds exactly the
    stored recipes of that category, with none (or an empty one) exactly
    the stored recipes, whether or not a viewer is set; it is sent under
    status 200 and nothing is written. *)
Theorem listRecipes_filters_by_category (req : Request) (st st' : State)
    (s : nat) (l : list RecipeJson) :
  serve listRecipes req st = (Sent s (JsonRecipes l), st') ->
  s = 200
  /\ untouched st st'
  /\ forall r,
      r ∈ map doc l
      <-> (exists id, recipes st !! id = Some r)
          /\ (forall c, query_category req = Some c -> c <> "" ->
                        category r = c).
Proof.
  intros Hrun.
  assert (Hl : map doc l = matching req st /\ s = 200 /\ untouched st st').
  { revert Hrun. unfold listRecipes, matching. run_M. simpl.
    destruct (req_user req) as [me|]; simpl;
      [destruct (users st !! user_id me) as [u|]; simpl|];
      intros Hrun; inversion Hrun; subst; clear Hrun;
      (split; [|by repeat split]);
      rewrite map_map; simpl; rewrite map_id;
      by destruct (query_category req) as [c|]; [destruct (Js.truthy c)|]. }
  destruct Hl as (Hl & -> & Hun). split; [done|]. split; [done|].
  intros r. rewrite Hl. apply elem_of_matching.
Qed.

(** X15. [myRecipes] answers with exactly the stored recipes whose
    [createdBy] is the caller, and writes nothing. *)
Theorem myRecipes_are_the_callers (req : Request) (st : State) (me : User) :
  req_user req = Some me ->
  exists l,
    serve myRecipes req st
    = (Sent 200 (JsonRecipes (map plain l)), with_status 200 st)
    /\ forall r,
        r ∈ l <-> (exists id, recipes st !! id = Some r)
                  /\ createdBy r = user_id me.
Proof.
  intros Hme. eexists. split.
  - unfold myRecipes. run_M. rewrite Hme. simpl. reflexivity.
  - intros r. simpl.
    by rewrite elem_of_List_filter, elem_of_stored, String.eqb_eq.
Qed.

(** X16. The recipes of a user can be listed by that user only.  A
    malformed [userId] ends in status 400 "Invalid user ID"; a well-formed
    one that is not the string of the caller's identifier ends in status
    403 "Not authorized to view this user's recipes"; the caller's own
    identifier is answered with the identifier, title, category and photo
    of exactly the caller's stored recipes.  Nothing is written. *)
Theorem userRecipes_only_own (userId : string) (req : Request) (st : State)
    (me : User) :
  req_user req = Some me ->
  (ObjectId_parse userId = None ->
   serve_of (userRecipes userId) req st
   = (FailedOf 400 (Error "Invalid user ID"), with_status 400 st))
  /\ (is_Some (ObjectId_parse userId) ->
      userId <> user_id me ->
      serve_of (userRecipes userId) req st
      = (FailedOf 403 (Error "Not authorized to view this user's recipes"),
         with_status 403 st))
  /\ (userId = user_id me ->
      ObjectId_parse (user_id me) = Some (user_id me) ->
      exists l,
        serve_of (userRecipes userId) req st
        = (SentOf 200 (map summary l), with_status 200 st)
        /\ forall r,
            r ∈ l <-> (exists id, recipes st !! id = Some r)
                      /\ createdBy r = user_id me).
Proof.
  intros Hme. split; [|split].
  - intros Hbad. unfold userRecipes. run_M. by rewrite Hbad.
  - intros [oid Hoid] Hne. unfold userRecipes. run_M.
    rewrite Hoid. simpl. rewrite Hme. simpl. unfold toString.
    by destruct (String.eqb_spec userId (user_id me)).
  - intros -> Hself. eexists. split.
    + unfold userRecipes. run_M. rewrite Hself. simpl. rewrite Hme. simpl.
      unfold toString. rewrite String.eqb_refl. simpl. reflexivity.
    + intros r. simpl.
      by rewrite elem_of_List_filter, elem_of_stored, String.eqb_eq.
Qed.

(** *** routes/recipes.js: favorites *)

Lemma filter_after_push (l : list ObjectId) (x : ObjectId) :
  x ∉ l ->
  List.filter (fun favId => negb (String.eqb (toString favId) (toString x)))
              (l ++ [x])
  = l.
Proof.
  unfold toString. intros Hnew. rewrite List.filter_app. simpl.
  rewrite String.eqb_refl. simpl. rewrite app_nil_r.
  induction l as [|y l IH]; [done|]. simpl.
  apply not_elem_of_cons in Hnew as [Hne Hnew].
  destruct (String.eqb_spec y x); [congruence|]. simpl. by rewrite IH.
Qed.

(** X17. A recipe that was added to the favorites shows up in the
    favorites listing: after an accepted [addFavorite], [getFavorites]
    answers with the recipes listed before followed by the added one. *)
Theorem added_favorite_is_listed (req : Request) (st : State)
    (recipe : Recipe) (me u : User) :
  ObjectId_parse (params_id req) = Some (_id recipe) ->
  recipes st !! _id recipe = Some recipe ->
  req_user req = Some me ->
  users st !! user_id me = Some u ->
  user_id u = user_id me ->
  _id recipe ∉ favorites u ->
  exists st1,
    serve addFavorite req st
    = (Sent 200 (JsonFavorite "Recipe added to favorites" true), st1)
    /\ serve getFavorites req st1
       = (Sent 200
            (JsonRecipes
               (map plain (populate_favorites st (favorites u) ++ [recipe]))),
          with_status 200 st1).
Proof.
  intros Hid Hrec Hme Hu Hkey Hnew. apply includes_not_elem_of in Hnew.
  eexists. split.
  - unfold addFavorite. run_M.
    rewrite Hid. simpl. rewrite Hrec, Hme. simpl. rewrite Hu. simpl.
    rewrite Hnew. simpl. reflexivity.
  - unfold getFavorites, populate_favorites. run_M.
    rewrite Hme. simpl. rewrite Hkey, lookup_insert_eq. simpl.
    rewrite omap_app. csimpl. by rewrite Hrec.
Qed.

(** X18. Adding a recipe to the favorites and removing it again brings the
    user record back: after the two accepted requests the users and the
    recipes are stored as before the first. *)
Theorem add_then_remove_favorite_restores (req : Request) (st : State)
    (recipe : Recipe) (me u : User) :
  ObjectId_parse (params_id req) = Some (_id recipe) ->
  recipes st !! _id recipe = Some recipe ->
  req_user req = Some me ->
  users st !! user_id me = Some u ->
  user_id u = user_id me ->
  _id recipe ∉ favorites u ->
  exists st1 st2,
    serve addFavorite req st
    = (Sent 200 (JsonFavorite "Recipe added to favorites" true), st1)
    /\ serve removeFavorite req st1
       = (Sent 200 (JsonFavorite "Recipe removed from favorites" false), st2)
    /\ users st2 = users st
    /\ recipes st2 = recipes st.
Proof.
  intros Hid Hrec Hme Hu Hkey Hnew.
  pose proof Hnew as Hinc. apply includes_not_elem_of in Hinc.
  do 2 eexists. split; [|split; [|split]].
  - unfold addFavorite. run_M.
    rewrite Hid. simpl. rewrite Hrec, Hme. simpl. rewrite Hu. simpl.
    rewrite Hinc. simpl. reflexivity.
  - unfold removeFavorite. run_M.
    rewrite Hid. simpl. rewrite Hrec, Hme. simpl.
    rewrite Hkey, lookup_insert_eq. simpl.
    rewrite includes_after_push. simpl. reflexivity.
  - fields. rewrite filter_after_push by done.
    rewrite Hkey, insert_insert_eq. apply insert_id.
    rewrite Hu. by destruct u.
  - done.
Qed.

(** X19. The two favorite handlers keep the favorites of every user free
    of repetitions: if no stored user lists a recipe twice before the
    request, none does after it, however the request ends. *)
Theorem favorites_stay_distinct (req : Request) (st st' : State)
    (out : Outcome) :
  (forall key v, users st !! key = Some v -> NoDup (favorites v)) ->
  serve addFavorite req st = (out, st')
  \/ serve removeFavorite req st = (out, st') ->
  forall key v, users st' !! key = Some v -> NoDup (favorites v).
Proof.
  intros Hinv Hrun key v.
  assert (Hcases :
    users st' = users st
    \/ exists id u,
        users st !! id = Some u
        /\ ((exists x, includes (favorites u) x = false
                       /\ users st'
                          = <[user_id u :=
                                with_favorites (favorites u ++ [x]) u]>
                              (users st))
            \/ (exists p,
                   users st'
                   = <[user_id u :=
                         with_favorites (List.filter p (favorites u)) u]>
                       (users st)))).
  { destruct Hrun as [Hrun|Hrun]; revert Hrun;
      unfold addFavorite, removeFavorite; run_M;
      destruct (ObjectId_parse (params_id req)) as [id|]; simpl;
      try (intros [= <- <-]; by left);
      destruct (recipes st !! id) as [recipe|]; simpl;
      try (intros [= <- <-]; by left);
      destruct (req_user req) as [me|]; simpl;
      try (intros [= <- <-]; by left);
      destruct (users st !! user_id me) as [u|] eqn:Hu; simpl;
      try (intros [= <- <-]; by left);
      destruct (includes (favorites u) (_id recipe)) eqn:Hinc; simpl;
      try (intros [= <- <-]; by left);
      intros [= <- <-]; right; exists (user_id me), u; (split; [done|]);
      [left; by exists (_id recipe)| right; by eexists]. }
  destruct Hcases as [->|(id & u & Hu & [(x & Hx & ->)|(p & ->)])].
  - apply Hinv.
  - destruct (decide (user_id u = key)) as [<-|Hne].
    + rewrite lookup_insert_eq. intros [= <-]. simpl.
      apply NoDup_app. split; [by apply (Hinv id)|]. split.
      * intros y Hy Hy'. apply list_elem_of_singleton in Hy'. subst y.
        by apply includes_not_elem_of in Hx.
      * apply NoDup_singleton.
    + rewrite lookup_insert_ne by done. apply Hinv.
  - destruct (decide (user_id u = key)) as [<-|Hne].
    + rewrite lookup_insert_eq. intros [= <-]. simpl.
      apply NoDup_ListNoDup, List.NoDup_filter, NoDup_ListNoDup.
      by apply (Hinv id).
    + rewrite lookup_insert_ne by done. apply Hinv.
Qed.

(** *** What the handlers leave alone, and what the app answers *)

Lemma read_only_ret {A} (a : A) : read_only (ret a).
Proof. by intros st. Qed.

Lemma read_only_throw {A} (e : Exn) : read_only (@throw A e).
Proof. by intros st. Qed.

Lemma read_only_get : read_only get.
Proof. by intros st. Qed.

Lemma read_only_fail {A} (n : nat) (msg : string) : read_only (@fail A n msg).
Proof. by intros st. Qed.

Lemma read_only_bind {A B} (m : M A) (k : A -> M B) :
  read_only m -> (forall a, read_only (k a)) -> read_only (bind m k).
Proof.
  intros Hm Hk st. unfold bind. specialize (Hm st).
  destruct (m st) as [[a|e] st1]; simpl in *; [|done].
  specialize (Hk a st1). destruct Hk as (-> & -> & ->). done.
Qed.

Lemma read_only_try_catch {A} (m : M A) (h : Exn -> M A) :
  read_only m -> (forall e, read_only (h e)) -> read_only (try_catch m h).
Proof.
  intros Hm Hh st. unfold try_catch. specialize (Hm st).
  destruct (m st) as [[a|e] st1]; simpl in *; [done|].
  specialize (Hh e st1). destruct Hh as (-> & -> & ->). done.
Qed.

Lemma read_only_when (b : bool) (m : M unit) :
  read_only m -> read_only (when b m).
Proof. intros Hm. unfold when. destruct b; [done|apply read_only_ret]. Qed.

Ltac read_only_step :=
  first
    [ apply read_only_ret | apply read_only_throw | apply read_only_get
    | apply read_only_fail | apply read_only_when
    | apply read_only_bind; [|intros ?]
    | apply read_only_try_catch; [|intros ?]
    | lazymatch goal with
      | |- read_only (match ?x with _ => _ end) => destruct x
      end ].

Lemma protect_read_only (req : Request) : read_only (protect req).
Proof.
  unfold protect, castObjectId, User_findById. repeat read_only_step.
Qed.

(** X20. The gate and the reading routes only read: however they end,
    [protect], the listing, the single recipe, the favorites listing, the
    caller's recipes and the recipes by user leave both collections and
    the log of external calls and writes as they were. *)
Theorem reading_routes_write_nothing (req : Request) (st : State) :
  untouched st (snd (protect req st))
  /\ Forall (fun route => untouched st (snd (serve route req st)))
            [GET_recipes; GET_recipe; GET_favorites; GET_my_recipes]
  /\ forall userId,
      untouched st (snd (serve_of (via_of protect (userRecipes userId))
                                  req st)).
Proof.
  assert (Hserve : forall h : Request -> M Json,
             read_only (h req) -> untouched st (snd (serve h req st))).
  { intros h Hh. unfold serve. specialize (Hh (with_status 200 st)).
    by destruct (h req (with_status 200 st)) as [[b|e] st']. }
  split; [apply protect_read_only|]. split.
  - repeat apply Forall_cons_2; try apply Forall_nil_2; apply Hserve;
      unfold GET_recipes, GET_recipe, GET_favorites, GET_my_recipes, via,
        listRecipes, getRecipe, getFavorites, myRecipes, Recipe_find,
        Recipe_find_createdBy, Recipe_findById, User_findById,
        castObjectId, the_user;
      repeat first [apply protect_read_only | read_only_step].
  - intros userId. unfold serve_of.
    assert (Hh : read_only (via_of protect (userRecipes userId) req)).
    { unfold via_of, userRecipes, Recipe_find_createdBy, castObjectId,
        the_user.
      repeat first [apply protect_read_only | read_only_step]. }
    specialize (Hh (with_status 200 st)).
    by destruct (via_of protect (userRecipes userId) req
                        (with_status 200 st)) as [[b|e] st'].
Qed.

Lemma keeps_ok_ret {A} (a : A) : keeps_ok (ret a).
Proof. by intros st a' st' Hok [= <- <-]. Qed.

Lemma keeps_ok_throw {A} (e : Exn) : keeps_ok (@throw A e).
Proof. by intros st a st' Hok. Qed.

Lemma keeps_ok_fail {A} (n : nat) (msg : string) : keeps_ok (@fail A n msg).
Proof. by intros st a st' Hok. Qed.

Lemma keeps_ok_get : keeps_ok get.
Proof. by intros st a st' Hok [= <- <-]. Qed.

Lemma keeps_ok_modify (f : State -> State) :
  (forall st, statusCode (f st) = statusCode st) -> keeps_ok (modify f).
Proof.
  intros Hf st a st' Hok Heq. inversion Heq; subst.
  unfold status_ok in *. by rewrite Hf.
Qed.

Lemma keeps_ok_created : keeps_ok (res_status 201).
Proof. intros st a st' Hok Heq. inversion Heq; subst. by right. Qed.

Lemma keeps_ok_bind {A B} (m : M A) (k : A -> M B) :
  keeps_ok m -> (forall a, keeps_ok (k a)) -> keeps_ok (bind m k).
Proof.
  intros Hm Hk st b st' Hok. unfold bind.
  destruct (m st) as [[a|e] st1] eqn:Hrun; [|done].
  intros Hrun'. apply (Hk a st1 b st'); [|done]. by apply (Hm st a).
Qed.

Lemma keeps_ok_try_catch {A} (m : M A) (n : nat) (msg : string) :
  keeps_ok m -> keeps_ok (try_catch m (fun _ => fail n msg)).
Proof.
  intros Hm st a st' Hok. unfold try_catch.
  destruct (m st) as [[a1|e] st1] eqn:Hrun; [|done].
  intros [= <- <-]. by apply (Hm st a1).
Qed.

Lemma keeps_ok_when (b : bool) (m : M unit) :
  keeps_ok m -> keeps_ok (when b m).
Proof. intros Hm. unfold when. destruct b; [done|apply keeps_ok_ret]. Qed.

Ltac keeps_ok_step :=
  first
    [ apply keeps_ok_ret | apply keeps_ok_throw | apply keeps_ok_get
    | apply keeps_ok_fail | apply keeps_ok_created | apply keeps_ok_when
    | apply keeps_ok_modify; by intros []
    | apply keeps_ok_try_catch
    | apply keeps_ok_bind; [|intros ?]
    | lazymatch goal with
      | |- keeps_ok (match ?x with _ => _ end) => destruct x
      | |- keeps_ok (if ?b then _ else _) => destruct b
      end ].

Lemma route_keeps_ok (route : Request -> M Json) (req : Request) :
  route ∈ recipe_routes -> keeps_ok (route req).
Proof.
  unfold recipe_routes. rewrite !elem_of_cons, elem_of_nil.
  intros Hin.
  repeat (destruct Hin as [->|Hin]); [..|done];
    unfold PUT_users_profile_photo, POST_recipe, GET_recipes, GET_favorites,
      GET_my_recipes, GET_recipe, PUT_recipe, DELETE_recipe, POST_review,
      POST_reply, POST_favorite, DELETE_favorite, via, protect,
      updateProfilePhoto, createRecipe, listRecipes, getFavorites,
      myRecipes, getRecipe, updateRecipe, deleteRecipe, addReview, addReply,
      addFavorite, removeFavorite, the_user, castObjectId, Recipe_findById,
      User_findById, Recipe_find, Recipe_find_createdBy, Recipe_create,
      Recipe_save, Recipe_deleteOne, User_save, User_findByIdAndUpdate,
      new_ObjectId, cloudinary_destroy, cloudinary_upload;
    repeat keeps_ok_step.
Qed.

(** X21. What a client of the recipe routes can receive.  When a route
    sends an answer it does so under status 200 or 201, and the app passes
    it on.  When a route throws, be it the gate or a handler, and whatever
    status it had set (400, 401, 403, 404 or 500), the error middleware of
    the app answers with status 500 and the message "Server error": no
    other status and no other error message reaches the client. *)
Theorem app_answers_200_201_or_500 (route : Request -> M Json)
    (req : Request) (st : State) :
  route ∈ recipe_routes ->
  (forall s json st',
      serve route req st = (Sent s json, st') ->
      (s = 200 \/ s = 201)
      /\ serve (app route) req st = (Sent s json, st'))
  /\ (forall s e st',
      serve route req st = (Failed s e, st') ->
      serve (app route) req st
      = (Sent 500 (JsonMessage "Server error"), with_status 500 st')).
Proof.
  intros Hin. pose proof (route_keeps_ok route req Hin) as Hok.
  unfold serve, app, try_catch, errorMiddleware.
  specialize (Hok (with_status 200 st)).
  destruct (route req (with_status 200 st)) as [[json0|e0] st0] eqn:Hrun.
  - split; [|done]. intros s json st' [= <- <- <-]. split; [|done].
    apply (Hok json0 st0); [by left|done].
  - split; [done|]. by intros s e st' [= <- <- <-].
Qed.

(** *** routes/recipes.js: the profile photo *)

(** X22. The profile photo handler asks for a file first: without one it
    sets status 400 and throws "No file uploaded", with no call and no
    write.  When the upload succeeded but the release of the old profile
    photo rejects, the request fails with status 500 "Failed to upload
    photo to Cloudinary": the user record keeps the old handle and the
    asset that was just uploaded is referenced by nothing. *)
Theorem profile_photo_edges (req : Request) (st : State) :
  (file req = None ->
   serve updateProfilePhoto req st
   = (Failed 400 (Error "No file uploaded"), with_status 400 st))
  /\ (forall f me result pid e,
      file req = Some f ->
      req_user req = Some me ->
      upload_answer (cloudinary st) "recipe-app/profiles" (buffer f)
      = inr result ->
      photo_public_id (profilePhoto me) = Some pid ->
      destroy_rejects (cloudinary st) pid = Some e ->
      exists st',
        serve updateProfilePhoto req st
        = (Failed 500 (Error "Failed to upload photo to Cloudinary"), st')
        /\ users st' = users st
        /\ log st' = log st ++ [CloudUpload "recipe-app/profiles" (buffer f);
                                CloudDestroy pid]).
Proof.
  split.
  - intros Hfile. unfold updateProfilePhoto. run_M. by rewrite Hfile.
  - intros f me result pid e Hfile Hme Hup Hpid Hrej. eexists.
    unfold updateProfilePhoto. run_M.
    rewrite Hfile. simpl. rewrite Hup, Hme. simpl. rewrite Hpid. simpl.
    rewrite Hrej. simpl. repeat split; fields.
Qed.

(** *** routes/recipes.js: what a write changes *)

(** X23. An accepted review is appended to the reviews of its recipe and
    to nothing else: it carries the submitted rating and description, the
    caller as author and no replies; the reviews that were there and the
    other fields of the recipe are unchanged, as are the other recipes and
    all users; the one write is the save, with no external call. *)
Theorem addReview_appends_callers_review (req : Request) (st : State)
    (recipe : Recipe) (me : User) (q : Js.number) (d : string) :
  ObjectId_parse (params_id req) = Some (_id recipe) ->
  recipes st !! _id recipe = Some recipe ->
  req_user req = Some me ->
  body_rating (body req) = Some q ->
  (1 # 1 <= q)%Q /\ (q <= 10 # 1)%Q ->
  body_description (body req) = Some d ->
  has_content d = true ->
  reviewed_by me (reviews recipe) = false ->
  exists st' recipe' review,
    serve addReview req st
    = (Sent 201 (JsonRecipe (Some (plain recipe'))), st')
    /\ recipes st' !! _id recipe = Some recipe'
    /\ reviews recipe' = reviews recipe ++ [review]
    /\ (rating review, description review, user review, replies review)
       = (q, d, user_id me, [])
    /\ with_reviews (reviews recipe) recipe' = recipe
    /\ (forall id, id <> _id recipe -> recipes st' !! id = recipes st !! id)
    /\ users st' = users st
    /\ log st' = log st ++ [RecipeSave recipe'].
Proof.
  intros Hid Hrec Hme Hq Hin Hd Hc Hnew.
  destruct (addReview_accepted req st recipe me q d)
    as (st' & Hrun & Hrecs & Husers & Hlog); try done.
  { by apply rating_accepted_iff. }
  { by apply description_accepted. }
  exists st'. do 2 eexists. split; [exact Hrun|].
  rewrite Hrecs. split; [apply lookup_insert_eq|].
  split; [done|]. split; [done|]. split; [by destruct recipe|].
  split; [|done]. intros id Hne. by rewrite lookup_insert_ne.
Qed.

(** X24. [updateRecipe] parses the ingredients after it has dealt with the
    photo.  An update by the owner whose ingredients field is no JSON
    throws the syntax error and saves nothing; if it carried a photo, the
    old asset has been released and the new one uploaded by then, while
    the stored recipe still names the old asset. *)
Theorem updateRecipe_bad_ingredients (req : Request) (st : State)
    (recipe : Recipe) (me : User) :
  ObjectId_parse (params_id req) = Some (_id recipe) ->
  recipes st !! _id recipe = Some recipe ->
  req_user req = Some me ->
  createdBy recipe = user_id me ->
  truthy_opt (body_ingredients (body req)) = true ->
  JSON_parse (default "" (body_ingredients (body req))) = None ->
  (file req = None ->
   serve updateRecipe req st
   = (Failed 200 SyntaxError, with_status 200 st))
  /\ (forall f result,
      file req = Some f ->
      release_resolves st (photo recipe) ->
      upload_answer (cloudinary st) "recipe-app/recipes" (buffer f)
      = inr result ->
      exists st',
        serve updateRecipe req st = (Failed 200 SyntaxError, st')
        /\ recipes st' = recipes st
        /\ log st' = log st ++ release_events (photo recipe)
                            ++ [CloudUpload "recipe-app/recipes"
                                            (buffer f)]).
Proof.
  intros Hid Hrec Hme Hown Hing Hparse.
  assert (Heq : String.eqb (createdBy recipe) (user_id me) = true)
    by (by apply String.eqb_eq).
  split.
  - intros Hfile. unfold updateRecipe. run_M.
    rewrite Hid. simpl. rewrite Hrec, Hme. simpl.
    unfold toString. by rewrite Heq, Hfile, Hing, Hparse.
  - intros f result Hfile Hrel Hup.
    unfold release_resolves, release_events in *.
    destruct (photo_public_id (photo recipe)) as [pid|] eqn:Hpid;
      eexists; unfold updateRecipe; run_M;
      rewrite Hid; simpl; rewrite Hrec, Hme; simpl;
      unfold toString; rewrite Heq, Hfile, Hing, Hparse, Hpid; simpl;
      rewrite ?Hrel; simpl; rewrite Hup; simpl;
      repeat split; fields.
Qed.

(** X25. The favorite handlers write to one place: however a request to
    add or remove a favorite ends, the recipes and every other user are
    stored as before, and the record of the caller differs from what it
    was in its favorites at most. *)
Theorem favorite_handlers_frame (req : Request) (st st' : State)
    (out : Outcome) (me u : User) :
  req_user req = Some me ->
  users st !! user_id me = Some u ->
  user_id u = user_id me ->
  serve addFavorite req st = (out, st')
  \/ serve removeFavorite req st = (out, st') ->
  recipes st' = recipes st
  /\ (forall key, key <> user_id me -> users st' !! key = users st !! key)
  /\ exists u', users st' !! user_id me = Some u'
                /\ with_favorites (favorites u) u' = u.
Proof.
  intros Hme Hu Hkey Hrun.
  destruct Hrun as [Hrun|Hrun]; revert Hrun;
    unfold addFavorite, removeFavorite; run_M;
    destruct (ObjectId_parse (params_id req)) as [id|]; simpl;
    try (intros [= <- <-]; simpl; split; [done|split; [done|]];
         exists u; split; [done|by destruct u]);
    destruct (recipes st !! id) as [recipe|]; simpl;
    try (intros [= <- <-]; simpl; split; [done|split; [done|]];
         exists u; split; [done|by destruct u]);
    rewrite Hme; simpl; rewrite Hu; simpl;
    destruct (includes (favorites u) (_id recipe)); simpl;
    intros [= <- <-]; simpl;
    (split; [done|]);
    try (split; [done|]; exists u; split; [done|by destruct u]);
    (split; [by intros key Hne; rewrite Hkey, lookup_insert_ne|]);
    eexists; (split; [by rewrite Hkey, lookup_insert_eq|]);
    by destruct u.
Qed.

(** *** The route by user behind the error middleware *)

Lemma keeps_status_ret {A} (a : A) : keeps_status (ret a).
Proof. by intros st a' st' [= <- <-]. Qed.

Lemma keeps_status_throw {A} (e : Exn) : keeps_status (@throw A e).
Proof. by intros st a st'. Qed.

Lemma keeps_status_fail {A} (n : nat) (msg : string) :
  keeps_status (@fail A n msg).
Proof. by intros st a st'. Qed.

Lemma keeps_status_get : keeps_status get.
Proof. by intros st a st' [= <- <-]. Qed.

Lemma keeps_status_bind {A B} (m : M A) (k : A -> M B) :
  keeps_status m -> (forall a, keeps_status (k a)) -> keeps_status (bind m k).
Proof.
  intros Hm Hk st b st'. unfold bind.
  destruct (m st) as [[a|e] st1] eqn:Hrun; [|done].
  intros Hrun'. rewrite (Hk a st1 b st' Hrun'). by apply (Hm st a).
Qed.

Lemma keeps_status_try_catch {A} (m : M A) (n : nat) (msg : string) :
  keeps_status m -> keeps_status (try_catch m (fun _ => fail n msg)).
Proof.
  intros Hm st a st'. unfold try_catch.
  destruct (m st) as [[a1|e] st1] eqn:Hrun; [|done].
  intros [= <- <-]. by apply (Hm st a1).
Qed.

Lemma keeps_status_when (b : bool) (m : M unit) :
  keeps_status m -> keeps_status (when b m).
Proof. intros Hm. unfold when. destruct b; [done|apply keeps_status_ret]. Qed.

Ltac keeps_status_step :=
  first
    [ apply keeps_status_ret | apply keeps_status_throw
    | apply keeps_status_get | apply keeps_status_fail
    | apply keeps_status_when | apply keeps_status_try_catch
    | apply keeps_status_bind; [|intros ?]
    | lazymatch goal with
      | |- keeps_status (match ?x with _ => _ end) => destruct x
      | |- keeps_status (if ?b then _ else _) => destruct b
      end ].

Lemma GET_user_recipes_keeps_status (userId : string) (req : Request) :
  keeps_status (GET_user_recipes userId req).
Proof.
  unfold GET_user_recipes, via_of, protect, userRecipes, the_user,
    castObjectId, User_findById, Recipe_find_createdBy.
  repeat keeps_status_step.
Qed.

(** X26. The route by user behind the error middleware.  When it sends the
    recipes it does so under status 200 and the app passes them on.  When
    it throws, at the gate (401), on a malformed identifier (400) or on
    the identifier of someone else (403), the client is answered with
    status 500 and the message "Server error". *)
Theorem by_user_route_answers_200_or_500 (userId : string) (req : Request)
    (st : State) :
  (forall s l st',
      serve_of (GET_user_recipes userId) req st = (SentOf s l, st') ->
      s = 200
      /\ serve_of (app_of (GET_user_recipes userId)) req st
         = (SentOf 200 (inl l), st'))
  /\ (forall s e st',
      serve_of (GET_user_recipes userId) req st = (FailedOf s e, st') ->
      serve_of (app_of (GET_user_recipes userId)) req st
      = (SentOf 500 (inr (JsonMessage "Server error")), with_status 500 st')).
Proof.
  pose proof (GET_user_recipes_keeps_status userId req
                (with_status 200 st)) as Hkeep.
  unfold serve_of, app_of, try_catch, errorMiddleware, res_status, modify,
    bind, ret.
  destruct (GET_user_recipes userId req (with_status 200 st))
    as [[l0|e0] st0] eqn:Hrun.
  - specialize (Hkeep l0 st0 eq_refl). simpl in Hkeep.
    split; [|done]. intros s l st' [= <- <- <-]. by rewrite Hkeep.
  - split; [done|]. by intros s e st' [= <- <- <-].
Qed.

End MoreProperties.

(** ** The theorems on the concrete deployment *)

#[global] Existing Instance Sample.platform.

Import Sample.

(** C1 does not hold of the code: Alice deletes her soup while the asset
    store rejects the release.  The handler throws the rejection, no success
    is reported, and the soup is still in the collection. *)
Lemma delete_with_failing_release_counterexample :
  createdBy soup = user_id alice
  /\ recipes (world release_down) !! soup_id = Some soup
  /\ fst (serve deleteRecipe (request_of alice "alice.jwt" no_fields None)
                (world release_down))
     = Failed 200 (CloudinaryError "timeout")
  /\ recipes (snd (serve deleteRecipe
                         (request_of alice "alice.jwt" no_fields None)
                         (world release_down))) !! soup_id
     = Some soup.
Proof. vm_compute. by repeat split. Qed.

Lemma release_failure_is_thrown_witness :
  (exists st',
      serve deleteRecipe (request_of alice "alice.jwt" no_fields None)
            (world store_up)
      = (Sent 200 (JsonMessage "Recipe deleted"), st')
      /\ recipes st' = delete soup_id (recipes (world store_up))
      /\ log st' = [CloudDestroy "recipe-app/recipes/p0";
                    RecipeDelete soup_id])
  /\ (exists st',
         serve deleteRecipe (request_of alice "alice.jwt" no_fields None)
               (world release_down)
         = (Failed 200 (CloudinaryError "timeout"), st')
         /\ recipes st' = recipes (world release_down)
         /\ log st' = [CloudDestroy "recipe-app/recipes/p0"]).
Proof.
  split.
  - destruct (release_failure_is_thrown
                (request_of alice "alice.jwt" no_fields None)
                (world store_up) soup (without_password alice)
                "recipe-app/recipes/p0")
      as (Hok & _); [by vm_compute ..|].
    by apply Hok.
  - destruct (release_failure_is_thrown
                (request_of alice "alice.jwt" no_fields None)
                (world release_down) soup (without_password alice)
                "recipe-app/recipes/p0")
      as (_ & Hrej & _); [by vm_compute ..|].
    by apply (Hrej "timeout").
Defined.

(** C2 at the failing input: Bob, whose favorites hold the soup, lists the
    recipes and reads the soup with a token that the auth gate accepts. *)
Lemma authenticated_caller_gets_no_isFavorited_witness :
  includes (favorites bob) soup_id = true
  /\ serve GET_recipes (incoming "bob.jwt" no_fields None) (world store_up)
     = (Sent 200 (JsonRecipes [mkRecipeJson soup None]),
        with_status 200 (world store_up))
  /\ serve GET_recipe (incoming "bob.jwt" no_fields None) (world store_up)
     = (Sent 200 (JsonRecipe (Some (mkRecipeJson soup None))),
        with_status 200 (world store_up)).
Proof.
  destruct (authenticated_caller_gets_no_isFavorited
              (incoming "bob.jwt" no_fields None) (world store_up)
              (without_password bob))
    as (Hlist & _ & Hget).
  - reflexivity.
  - eexists. vm_compute. reflexivity.
  - split; [by vm_compute|]. split.
    + rewrite Hlist. by vm_compute.
    + apply (Hget soup); by vm_compute.
Defined.

Lemma photo_replacement_order_witness :
  (exists st',
      serve updateRecipe (request_of alice "alice.jwt" no_fields (Some jpeg))
            (world upload_down)
      = (Failed 200 (CloudinaryError "timeout"), st')
      /\ recipes st' !! soup_id = Some soup
      /\ log st' = [CloudDestroy "recipe-app/recipes/p0";
                    CloudUpload "recipe-app/recipes" (buffer jpeg)])
  /\ (exists st' recipe',
         serve updateRecipe
               (request_of alice "alice.jwt" no_fields (Some jpeg))
               (world store_up)
         = (Sent 200 (JsonRecipe (Some (mkRecipeJson recipe' None))), st')
         /\ photo recipe'
            = Some (mkPhoto "recipe-app/recipes/p1" "https://cdn/p1.jpg")
         /\ recipes st' !! soup_id = Some recipe'
         /\ log st' = [CloudDestroy "recipe-app/recipes/p0";
                       CloudUpload "recipe-app/recipes" (buffer jpeg);
                       RecipeSave recipe']).
Proof.
  split.
  - destruct (photo_replacement_order
                (request_of alice "alice.jwt" no_fields (Some jpeg))
                (world upload_down) soup (without_password alice) jpeg)
      as (_ & Hup & _); [by vm_compute ..|].
    destruct (Hup "timeout") as (st' & Hrun & _ & Hkept & Hlog);
      [by vm_compute ..|].
    exists st'. by repeat split.
  - destruct (photo_replacement_order
                (request_of alice "alice.jwt" no_fields (Some jpeg))
                (world store_up) soup (without_password alice) jpeg)
      as (_ & _ & Hok); [by vm_compute ..|].
    destruct (Hok uploaded)
      as (st' & recipe' & Hrun & Hphoto & Hstored & Hlog);
      [by vm_compute ..|].
    exists st', recipe'. split; [exact Hrun|]. split; [exact Hphoto|].
    split; [|exact Hlog]. rewrite Hstored. apply lookup_insert_eq.
Defined.

(** C4 does not hold of the code as it is stated: Bob, who has reviewed the
    soup, sends a second review with rating 0.  The request fails on the
    rating, not as a duplicate. *)
Lemma second_review_invalid_rating_counterexample :
  reviewed_by bob (reviews soup) = true
  /\ fst (serve addReview
                (request_of bob "bob.jwt" (review_fields (0 # 1) "again") None)
                (world store_up))
     = Failed 400 (Error "Rating must be between 1 and 10")
  /\ fst (serve addReview
                (request_of bob "bob.jwt" (review_fields (0 # 1) "again") None)
                (world store_up))
     <> Failed 400 (Error "You have already reviewed this recipe").
Proof. vm_compute. by repeat split. Qed.

Lemma second_review_rejected_witness :
  serve addReview
        (request_of bob "bob.jwt" (review_fields (3 # 1) "again") None)
        (world store_up)
  = (Failed 400 (Error "You have already reviewed this recipe"),
     with_status 400 (world store_up))
  /\ (forall out st',
         serve addReview
               (request_of alice "alice.jwt" (review_fields (3 # 1) "thin")
                           None)
               (world store_up) = (out, st') ->
         exists recipe',
           recipes st' !! soup_id = Some recipe'
           /\ NoDup (map user (reviews recipe'))).
Proof.
  split.
  - destruct (second_review_rejected
                (request_of bob "bob.jwt" (review_fields (3 # 1) "again") None)
                (world store_up) soup (without_password bob))
      as (Hdup & _); [by vm_compute ..|].
    by apply Hdup.
  - destruct (second_review_rejected
                (request_of alice "alice.jwt" (review_fields (3 # 1) "thin")
                            None)
                (world store_up) soup (without_password alice))
      as (_ & Hinv); [by vm_compute ..|].
    apply Hinv. simpl. apply NoDup_singleton.
Defined.

Lemma non_owner_is_forbidden_witness :
  (exists st',
      serve updateRecipe (request_of bob "bob.jwt" recipe_fields (Some jpeg))
            (world store_up)
      = (Failed 401 (Error "Not authorized"), st')
      /\ untouched (world store_up) st')
  /\ (exists st',
         serve deleteRecipe
               (request_of bob "bob.jwt" recipe_fields (Some jpeg))
               (world store_up)
         = (Failed 401 (Error "Not authorized"), st')
         /\ untouched (world store_up) st').
Proof.
  apply (non_owner_is_forbidden
           (request_of bob "bob.jwt" recipe_fields (Some jpeg))
           (world store_up) soup (without_password bob));
    by vm_compute.
Defined.

Lemma favorite_toggle_guarded_witness :
  (exists st1,
      serve addFavorite (request_of alice "alice.jwt" no_fields None)
            (world store_up)
      = (Sent 200 (JsonFavorite "Recipe added to favorites" true), st1)
      /\ users st1 !! user_id alice = Some (with_favorites [soup_id] alice)
      /\ serve addFavorite (request_of alice "alice.jwt" no_fields None) st1
         = (Failed 400 (Error "Recipe already in favorites"),
            with_status 400 st1))
  /\ serve removeFavorite (request_of alice "alice.jwt" no_fields None)
           (world store_up)
     = (Failed 400 (Error "Recipe not in favorites"),
        with_status 400 (world store_up)).
Proof.
  destruct (favorite_toggle_guarded
              (request_of alice "alice.jwt" no_fields None)
              (world store_up) soup (without_password alice) alice)
    as (Hnew & _); [by vm_compute ..|].
  apply Hnew. simpl. set_solver.
Defined.

Lemma createdBy_is_creator_and_kept_witness :
  (exists st' recipe,
      serve createRecipe
            (request_of alice "alice.jwt" recipe_fields (Some jpeg))
            (world store_up)
      = (Sent 201 (JsonRecipe (Some (plain recipe))), st')
      /\ createdBy recipe = user_id alice
      /\ recipes st' !! _id recipe = Some recipe)
  /\ (forall out st',
         serve updateRecipe
               (request_of alice "alice.jwt" recipe_fields (Some jpeg))
               (world store_up) = (out, st') ->
         exists recipe',
           recipes st' !! soup_id = Some recipe'
           /\ createdBy recipe' = user_id alice
           /\ _id recipe' = soup_id
           /\ reviews recipe' = [bobs_review]).
Proof.
  destruct (createdBy_is_creator_and_kept
              (request_of alice "alice.jwt" recipe_fields (Some jpeg))
              (world store_up) (without_password alice))
    as (Hcreate & Hupdate); [by vm_compute|].
  split.
  - destruct (Hcreate jpeg uploaded ["1"; "2"])
      as (st' & recipe & Hrun & Hby & Hstored & _); [by vm_compute ..|].
    by exists st', recipe.
  - intros out st' Hrun.
    destruct (Hupdate soup out st') as (Hkept & _); [by vm_compute ..|done|].
    exact Hkept.
Defined.

Lemma description_stored_untrimmed_witness :
  Js.trim " tasty " = "tasty"
  /\ (exists st' recipe' review,
         serve addReview
               (request_of alice "alice.jwt" (review_fields (7 # 1) " tasty ")
                           None)
               (world store_up)
         = (Sent 201 (JsonRecipe (Some (plain recipe'))), st')
         /\ recipes st' !! soup_id = Some recipe'
         /\ reviews recipe' = [bobs_review; review]
         /\ description review = " tasty ")
  /\ (exists st' recipe' review' reply,
         serve addReply
               (request_of alice "alice.jwt" (review_fields (7 # 1) " tasty ")
                           None)
               (world store_up)
         = (Sent 201 (JsonRecipe (Some (plain recipe'))), st')
         /\ recipes st' !! soup_id = Some recipe'
         /\ reviews_id bobs_review_id (reviews recipe') = Some review'
         /\ replies review' = [reply]
         /\ reply_description reply = " tasty "
         /\ reply_user reply = user_id alice).
Proof.
  destruct (description_stored_untrimmed
              (request_of alice "alice.jwt" (review_fields (7 # 1) " tasty ")
                          None)
              (world store_up) soup (without_password alice) " tasty ")
    as (Hreview & Hreply); [by vm_compute ..|].
  split; [by vm_compute|]. split.
  - apply (Hreview (7 # 1)); by vm_compute.
  - apply (Hreply bobs_review_id bobs_review); by vm_compute.
Defined.

Lemma profile_photo_upload_first_witness :
  (exists st',
      serve updateProfilePhoto
            (request_of alice "alice.jwt" no_fields (Some jpeg))
            (world upload_down)
      = (Failed 500 (Error "Failed to upload photo to Cloudinary"), st')
      /\ users st' !! user_id alice = Some alice
      /\ log st' = [CloudUpload "recipe-app/profiles" (buffer jpeg)])
  /\ (exists st',
         serve updateProfilePhoto
               (request_of alice "alice.jwt" no_fields (Some jpeg))
               (world store_up)
         = (Sent 200 (JsonProfile (Some (photo_of uploaded))
                                  "Profile photo updated successfully"), st')
         /\ log st' = [CloudUpload "recipe-app/profiles" (buffer jpeg);
                       CloudDestroy "recipe-app/profiles/a0";
                       UserUpdatePhoto (user_id alice) (photo_of uploaded)]).
Proof.
  split.
  - destruct (profile_photo_upload_first
                (request_of alice "alice.jwt" no_fields (Some jpeg))
                (world upload_down) (without_password alice) jpeg)
      as (Hfail & _); [by vm_compute ..|].
    destruct (Hfail "timeout") as (st' & Hrun & Husers & _ & Hlog);
      [by vm_compute|].
    exists st'. split; [done|]. split; [by rewrite Husers|done].
  - destruct (profile_photo_upload_first
                (request_of alice "alice.jwt" no_fields (Some jpeg))
                (world store_up) (without_password alice) jpeg)
      as (_ & Hok); [by vm_compute ..|].
    destruct (Hok uploaded alice) as (st' & Hrun & _ & Hlog);
      [by vm_compute ..|].
    by exists st'.
Defined.

(** ** The rating as sent, on the concrete deployment *)

#[global] Existing Instance Coerce.sample.

(** C7 at the failing input: Alice, who has not reviewed the soup, and Bob,
    who has, send the rating "abc".  The numbers 0, 11 and "11" are turned
    down by the rating check and 1, 10 are accepted; "abc" gets past it. *)
Lemma rating_check_misses_non_numbers_witness :
  Forall (fun sent =>
            serve (addReview_of sent)
                  (Pantry.request (Some alice) soup_id "" None
                                  (Pantry.described "thin") None)
                  (world store_up)
            = (Failed 400 (Error "Rating must be between 1 and 10"),
               with_status 400 (world store_up)))
         [JsValue.Number (JsValue.Finite (0 # 1));
          JsValue.Number (JsValue.Finite (11 # 1));
          JsValue.Text "11"; JsValue.Undefined; JsValue.Null]
  /\ Forall (fun q =>
               exists st' recipe' review,
                 serve (addReview_of (JsValue.Number (JsValue.Finite q)))
                       (Pantry.request (Some alice) soup_id "" None
                                       (Pantry.described "thin") None)
                       (world store_up)
                 = (Sent 201 (JsonRecipe (Some (mkRecipeJson recipe' None))),
                    st')
                 /\ recipes st' !! soup_id = Some recipe'
                 /\ reviews recipe' = [bobs_review; review]
                 /\ (rating review, description review, user review,
                     replies review)
                    = (q, "thin", user_id alice, []))
            [1 # 1; 10 # 1]
  /\ serve (addReview_of (JsValue.Text "abc"))
           (Pantry.request (Some alice) soup_id "" None
                           (Pantry.described "   ") None)
           (world store_up)
     = (Failed 400 (Error "Description is required"),
        with_status 400 (world store_up))
  /\ serve (addReview_of (JsValue.Text "abc"))
           (Pantry.request (Some bob) soup_id "" None
                           (Pantry.described "again") None)
           (world store_up)
     = (Failed 400 (Error "You have already reviewed this recipe"),
        with_status 400 (world store_up))
  /\ exists st',
      serve (addReview_of (JsValue.Text "abc"))
            (Pantry.request (Some alice) soup_id "" None
                            (Pantry.described "thin") None)
            (world store_up)
      = (Failed 200 CastError, st')
      /\ recipes st' = recipes (world store_up).
Proof.
  split; [|split; [|split; [|split]]].
  - repeat apply Forall_cons_2; try apply Forall_nil_2;
      match goal with
      | |- serve (addReview_of ?sent) ?req ?st = _ =>
          destruct (rating_check_misses_non_numbers sent req st soup)
            as (Hout & _); [by vm_compute ..|]; apply Hout
      end.
    + by left.
    + right. left. exists (11 # 1). split; [done|]. by right.
    + right. left. exists (11 # 1). split; [done|]. by right.
    + by left.
    + by left.
  - repeat apply Forall_cons_2; try apply Forall_nil_2;
      match goal with
      | |- exists _ _ _, serve (addReview_of (JsValue.Number
                                                (JsValue.Finite ?q)))
                               ?req ?st = _ /\ _ =>
          destruct (rating_check_misses_non_numbers
                      (JsValue.Number (JsValue.Finite q)) req st soup)
            as (_ & _ & Hin & _); [by vm_compute ..|];
          apply (Hin q "thin" alice); by vm_compute
      end.
  - destruct (rating_check_misses_non_numbers (JsValue.Text "abc")
                (Pantry.request (Some alice) soup_id "" None
                                (Pantry.described "   ") None)
                (world store_up) soup)
      as (_ & _ & _ & Hnan); [by vm_compute ..|].
    destruct Hnan as (Hblank & _); [by vm_compute ..|].
    apply (Hblank "   "); by vm_compute.
  - destruct (rating_check_misses_non_numbers (JsValue.Text "abc")
                (Pantry.request (Some bob) soup_id "" None
                                (Pantry.described "again") None)
                (world store_up) soup)
      as (_ & _ & _ & Hnan); [by vm_compute ..|].
    destruct Hnan as (_ & Hgoes); [by vm_compute ..|].
    destruct (Hgoes "again" bob) as (Hdup & _); [by vm_compute ..|].
    apply Hdup. by vm_compute.
  - destruct (rating_check_misses_non_numbers (JsValue.Text "abc")
                (Pantry.request (Some alice) soup_id "" None
                                (Pantry.described "thin") None)
                (world store_up) soup)
      as (_ & _ & _ & Hnan); [by vm_compute ..|].
    destruct Hnan as (_ & Hgoes); [by vm_compute ..|].
    destruct (Hgoes "thin" alice) as (_ & Hsave); [by vm_compute ..|].
    destruct Hsave as (st' & Hrun & Hrecs & _); [by vm_compute|].
    by exists st'.
Defined.

(** ** The further properties on the concrete deployment *)

Import Pantry.

Lemma protect_requires_bearer_witness :
  serve (via protect deleteRecipe)
        (request None soup_id "" None no_fields None) (world store_up)
  = (Failed 401 (Error "Not authorized, no token"),
     with_status 401 (world store_up)).
Proof.
  apply (protect_requires_bearer
           (request None soup_id "" None no_fields None) (world store_up)
           deleteRecipe).
  reflexivity.
Defined.

Lemma protect_resolves_or_token_failed_witness :
  protect (incoming "carol.jwt" no_fields None) (world store_up)
  = (Thrown (Error "Not authorized, token failed"),
     with_status 401 (world store_up))
  /\ protect (incoming "anonymous.jwt" no_fields None) (world store_up)
     = (Thrown (Error "Not authorized, token failed"),
        with_status 401 (world store_up)).
Proof.
  split.
  - destruct (protect_resolves_or_token_failed
                (incoming "carol.jwt" no_fields None) (world store_up))
      as [(a & t & i & o & u & _ & _ & _ & _ & _ & _ & Hrun)|Hrun];
      [by vm_compute| |exact Hrun].
    vm_compute in Hrun. discriminate Hrun.
  - destruct (protect_resolves_or_token_failed
                (incoming "anonymous.jwt" no_fields None) (world store_up))
      as [(a & t & i & o & u & _ & _ & _ & _ & _ & _ & Hrun)|Hrun];
      [by vm_compute| |exact Hrun].
    vm_compute in Hrun. discriminate Hrun.
Defined.

Lemma protect_accepts_bearer_token_witness :
  protect (mkRequest (Some "Bearers bob.jwt") soup_id "" None no_fields
                     None None)
          (world store_up)
  = (Returned
       (with_user (without_password bob)
          (mkRequest (Some "Bearers bob.jwt") soup_id "" None no_fields
                     None None)),
     world store_up).
Proof.
  apply (protect_accepts_bearer_token _ _ "Bearers" "bob.jwt"
           (user_id bob) (user_id bob) bob); by vm_compute.
Defined.

Lemma malformed_id_is_rejected_witness :
  Forall (fun h => serve h (request (Some alice) "soup" "" None no_fields
                                    None)
                         (world store_up)
                   = (Failed 400 (Error "Invalid recipe ID"),
                      with_status 400 (world store_up)))
         [getRecipe; updateRecipe; deleteRecipe; addReview; addReply;
          addFavorite; removeFavorite]
  /\ serve addReply
           (request (Some alice) soup_id "first" None no_fields None)
           (world store_up)
     = (Failed 400 (Error "Invalid review ID"),
        with_status 400 (world store_up)).
Proof.
  split.
  - apply (malformed_id_is_rejected
             (request (Some alice) "soup" "" None no_fields None)
             (world store_up)).
    by vm_compute.
  - apply (malformed_id_is_rejected
             (request (Some alice) soup_id "first" None no_fields None)
             (world store_up)) with (id := soup_id); by vm_compute.
Defined.

Lemma missing_recipe_is_not_found_witness :
  Forall (fun h => serve h (request (Some alice) unknown_id "" None
                                    no_fields None)
                         (world store_up)
                   = (Failed 404 (Error "Recipe not found"),
                      with_status 404 (world store_up)))
         [getRecipe; updateRecipe; deleteRecipe; addReview; addFavorite;
          removeFavorite].
Proof.
  apply (missing_recipe_is_not_found
           (request (Some alice) unknown_id "" None no_fields None)
           (world store_up) unknown_id); by vm_compute.
Defined.

Lemma addReply_rejections_witness :
  serve addReply
        (request (Some alice) soup_id unknown_id None
                 (review_fields (5 # 1) "   ") None)
        (world store_up)
  = (Failed 404 (Error "Review not found"), with_status 404 (world store_up))
  /\ serve addReply
           (request (Some alice) soup_id bobs_review_id None
                    (review_fields (5 # 1) "   ") None)
           (world store_up)
     = (Failed 400 (Error "Reply description is required"),
        with_status 400 (world store_up)).
Proof.
  split.
  - destruct (addReply_rejections
                (request (Some alice) soup_id unknown_id None
                         (review_fields (5 # 1) "   ") None)
                (world store_up) soup unknown_id)
      as (Hnone & _); [by vm_compute ..|].
    by apply Hnone.
  - destruct (addReply_rejections
                (request (Some alice) soup_id bobs_review_id None
                         (review_fields (5 # 1) "   ") None)
                (world store_up) soup bobs_review_id)
      as (_ & Hempty); [by vm_compute ..|].
    apply Hempty; [by eexists|by vm_compute].
Defined.

Lemma addReply_changes_one_review_witness :
  exists st' recipe',
    serve addReply
          (request (Some alice) soup_id bobs_review_id None
                   (review_fields (5 # 1) " agreed ") None)
          (world store_up)
    = (Sent 201 (JsonRecipe (Some (plain recipe'))), st')
    /\ recipes st' !! soup_id = Some recipe'
    /\ map (fun rv => (review_id rv, rating rv, description rv, user rv))
           (reviews recipe')
       = [(bobs_review_id, 8 # 1, "hearty", user_id bob)]
    /\ length (concat (map replies (reviews recipe'))) = 1%nat.
Proof.
  destruct (addReply_changes_one_review
              (request (Some alice) soup_id bobs_review_id None
                       (review_fields (5 # 1) " agreed ") None)
              (world store_up) soup alice " agreed " bobs_review_id
              bobs_review)
    as (st' & recipe' & Hrun & Hstored & _ & Hcore & _ & _ & Hlen & _);
    [by vm_compute ..|].
  by exists st', recipe'.
Defined.

Lemma createRecipe_requires_all_fields_witness :
  serve createRecipe (request (Some alice) "" "" None title_only (Some jpeg))
        (world store_up)
  = (Failed 400 (Error "Please fill all fields and upload a photo"),
     with_status 400 (world store_up)).
Proof.
  apply (createRecipe_requires_all_fields
           (request (Some alice) "" "" None title_only (Some jpeg))
           (world store_up)).
  right. left. reflexivity.
Defined.

Lemma createRecipe_failures_store_nothing_witness :
  exists st',
    serve createRecipe
          (request (Some alice) "" "" None recipe_fields (Some jpeg))
          (world upload_down)
    = (Failed 500 (Error "Failed to create recipe"), st')
    /\ recipes st' = recipes (world upload_down)
    /\ users st' = users (world upload_down)
    /\ log st' = [CloudUpload "recipe-app/recipes" (buffer jpeg)].
Proof.
  apply (createRecipe_failures_store_nothing
           (request (Some alice) "" "" None recipe_fields (Some jpeg))
           (world upload_down) jpeg); try by vm_compute.
  left. by exists "timeout".
Defined.

Lemma created_recipe_reads_back_witness :
  exists st1 created,
    serve createRecipe
          (request (Some alice) "" "" None recipe_fields (Some jpeg))
          (world store_up)
    = (Sent 201 (JsonRecipe (Some (plain created))), st1)
    /\ serve getRecipe
             (request None "65f000000000000000000000" "" None no_fields None)
             st1
       = (Sent 200 (JsonRecipe (Some (plain created))), with_status 200 st1)
    /\ (title created, ingredients created, instructions created,
        category created, cookingTime created)
       = ("Stew", ["1"; "2"], "simmer", "dinner", "45")
    /\ recipes st1 !! soup_id = Some soup.
Proof.
  destruct (created_recipe_reads_back
              (request (Some alice) "" "" None recipe_fields (Some jpeg))
              (request None "65f000000000000000000000" "" None no_fields
                       None)
              (world store_up) alice jpeg uploaded ["1"; "2"])
    as (st1 & Hcreate & Hget & Hkept); [by vm_compute ..|].
  exists st1. eexists. split; [exact Hcreate|]. split; [exact Hget|].
  split; [reflexivity|]. rewrite Hkept; by vm_compute.
Defined.

Lemma updateRecipe_is_partial_witness :
  exists st' recipe',
    serve updateRecipe
          (request (Some alice) soup_id "" None title_only None)
          (world store_up)
    = (Sent 200 (JsonRecipe (Some (plain recipe'))), st')
    /\ log st' = [RecipeSave recipe']
    /\ title recipe' = "Broth"
    /\ instructions recipe' = "boil"
    /\ category recipe' = "dinner".
Proof.
  destruct (updateRecipe_is_partial
              (request (Some alice) soup_id "" None title_only None)
              (world store_up) soup alice)
    as (st' & recipe' & Hrun & _ & Hlog & Ht & Hn & Hc & _);
    [by vm_compute ..|].
  exists st', recipe'. by repeat split.
Defined.

Lemma deleted_recipe_is_gone_witness :
  exists st1,
    serve deleteRecipe (request (Some alice) soup_id "" None no_fields None)
          (pantry store_up)
    = (Sent 200 (JsonMessage "Recipe deleted"), st1)
    /\ recipes st1 !! salad_id = Some salad
    /\ serve getRecipe (request None soup_id "" None no_fields None) st1
       = (Failed 404 (Error "Recipe not found"), with_status 404 st1).
Proof.
  destruct (deleted_recipe_is_gone
              (request (Some alice) soup_id "" None no_fields None)
              (request None soup_id "" None no_fields None)
              (pantry store_up) soup alice)
    as (st1 & Hrun & _ & Hothers & _ & Hget & _); [by vm_compute ..|].
  exists st1. split; [exact Hrun|]. split; [|exact Hget].
  rewrite Hothers; by vm_compute.
Defined.

Lemma deleted_recipe_stays_in_favorites_witness :
  exists st1,
    serve deleteRecipe (request (Some alice) soup_id "" None no_fields None)
          (pantry store_up)
    = (Sent 200 (JsonMessage "Recipe deleted"), st1)
    /\ favorites <$> users st1 !! user_id bob = Some [soup_id]
    /\ serve getFavorites (request (Some bob) "" "" None no_fields None) st1
       = (Sent 200 (JsonRecipes []), with_status 200 st1).
Proof.
  destruct (deleted_recipe_stays_in_favorites
              (request (Some alice) soup_id "" None no_fields None)
              (request (Some bob) "" "" None no_fields None)
              (pantry store_up) soup alice bob)
    as (st1 & Hrun & Hbob & Hlist); [by vm_compute ..| |].
  { apply list_elem_of_here. }
  exists st1. split; [exact Hrun|]. split; [by rewrite Hbob|exact Hlist].
Defined.

Lemma listRecipes_filters_by_category_witness :
  serve listRecipes (request None "" "" (Some "lunch") no_fields None)
        (pantry store_up)
  = (Sent 200 (JsonRecipes [plain salad]), with_status 200 (pantry store_up))
  /\ forall r,
      r ∈ [salad]
      <-> (exists id, recipes (pantry store_up) !! id = Some r)
          /\ (forall c, Some "lunch" = Some c -> c <> "" -> category r = c).
Proof.
  assert (Hrun : serve listRecipes
                       (request None "" "" (Some "lunch") no_fields None)
                       (pantry store_up)
                 = (Sent 200 (JsonRecipes [plain salad]),
                    with_status 200 (pantry store_up))) by (by vm_compute).
  split; [exact Hrun|].
  apply (listRecipes_filters_by_category _ _ _ _ _ Hrun).
Defined.

Lemma myRecipes_are_the_callers_witness :
  exists l,
    serve myRecipes (request (Some bob) "" "" None no_fields None)
          (pantry store_up)
    = (Sent 200 (JsonRecipes (map plain l)),
       with_status 200 (pantry store_up))
    /\ forall r,
        r ∈ l <-> (exists id, recipes (pantry store_up) !! id = Some r)
                  /\ createdBy r = user_id bob.
Proof.
  apply (myRecipes_are_the_callers
           (request (Some bob) "" "" None no_fields None)
           (pantry store_up) bob).
  reflexivity.
Defined.

Lemma userRecipes_only_own_witness :
  serve_of (userRecipes (user_id alice))
           (request (Some bob) "" "" None no_fields None) (pantry store_up)
  = (FailedOf 403 (Error "Not authorized to view this user's recipes"),
     with_status 403 (pantry store_up))
  /\ serve_of (userRecipes "64A000000000000000000002")
              (request (Some bob) "" "" None no_fields None)
              (pantry store_up)
     = (FailedOf 403 (Error "Not authorized to view this user's recipes"),
        with_status 403 (pantry store_up))
  /\ exists l,
      serve_of (userRecipes (user_id bob))
               (request (Some bob) "" "" None no_fields None)
               (pantry store_up)
      = (SentOf 200 (map summary l), with_status 200 (pantry store_up))
      /\ forall r,
          r ∈ l <-> (exists id, recipes (pantry store_up) !! id = Some r)
                    /\ createdBy r = user_id bob.
Proof.
  split; [|split].
  - destruct (userRecipes_only_own (user_id alice)
                (request (Some bob) "" "" None no_fields None)
                (pantry store_up) bob) as (_ & Hother & _); [done|].
    apply Hother; [by eexists|by vm_compute].
  - destruct (userRecipes_only_own "64A000000000000000000002"
                (request (Some bob) "" "" None no_fields None)
                (pantry store_up) bob) as (_ & Hother & _); [done|].
    apply Hother; [by eexists|by vm_compute].
  - destruct (userRecipes_only_own (user_id bob)
                (request (Some bob) "" "" None no_fields None)
                (pantry store_up) bob) as (_ & _ & Hown); [done|].
    apply Hown; by vm_compute.
Defined.

Lemma added_favorite_is_listed_witness :
  exists st1,
    serve addFavorite (request (Some alice) soup_id "" None no_fields None)
          (pantry store_up)
    = (Sent 200 (JsonFavorite "Recipe added to favorites" true), st1)
    /\ serve getFavorites
             (request (Some alice) soup_id "" None no_fields None) st1
       = (Sent 200 (JsonRecipes [plain soup]), with_status 200 st1).
Proof.
  apply (added_favorite_is_listed
           (request (Some alice) soup_id "" None no_fields None)
           (pantry store_up) soup alice alice); try by vm_compute.
  apply not_elem_of_nil.
Defined.

Lemma add_then_remove_favorite_restores_witness :
  exists st1 st2,
    serve addFavorite (request (Some alice) soup_id "" None no_fields None)
          (pantry store_up)
    = (Sent 200 (JsonFavorite "Recipe added to favorites" true), st1)
    /\ serve removeFavorite
             (request (Some alice) soup_id "" None no_fields None) st1
       = (Sent 200 (JsonFavorite "Recipe removed from favorites" false), st2)
    /\ users st2 = users (pantry store_up)
    /\ recipes st2 = recipes (pantry store_up).
Proof.
  apply (add_then_remove_favorite_restores
           (request (Some alice) soup_id "" None no_fields None)
           (pantry store_up) soup alice alice); try by vm_compute.
  apply not_elem_of_nil.
Defined.

Lemma favorites_stay_distinct_witness :
  exists st',
    serve addFavorite (request (Some alice) soup_id "" None no_fields None)
          (pantry store_up)
    = (Sent 200 (JsonFavorite "Recipe added to favorites" true), st')
    /\ forall key v, users st' !! key = Some v -> NoDup (favorites v).
Proof.
  eexists. split; [by vm_compute|].
  apply (favorites_stay_distinct
           (request (Some alice) soup_id "" None no_fields None)
           (pantry store_up) _
           (Sent 200 (JsonFavorite "Recipe added to favorites" true)));
    [|left; by vm_compute].
  intros key v. simpl.
  rewrite lookup_insert_Some, lookup_singleton_Some.
  intros [[_ <-]|[_ [_ <-]]]; simpl.
  - apply NoDup_nil_2.
  - apply NoDup_singleton.
Defined.

Lemma app_answers_200_201_or_500_witness :
  serve (app DELETE_recipe) (incoming "bob.jwt" no_fields None)
        (world store_up)
  = (Sent 500 (JsonMessage "Server error"),
     with_status 500 (world store_up))
  /\ serve (app DELETE_recipe)
           (request None soup_id "" None no_fields None) (world store_up)
     = (Sent 500 (JsonMessage "Server error"),
        with_status 500 (world store_up)).
Proof.
  assert (Hroute : DELETE_recipe ∈ recipe_routes).
  { unfold recipe_routes. do 7 apply list_elem_of_further.
    apply list_elem_of_here. }
  split.
  - destruct (app_answers_200_201_or_500 DELETE_recipe
                (incoming "bob.jwt" no_fields None) (world store_up) Hroute)
      as (_ & Hthrown).
    assert (Hrun : serve DELETE_recipe (incoming "bob.jwt" no_fields None)
                         (world store_up)
                   = (Failed 401 (Error "Not authorized"),
                      with_status 401 (world store_up))) by (by vm_compute).
    apply Hthrown in Hrun. exact Hrun.
  - destruct (app_answers_200_201_or_500 DELETE_recipe
                (request None soup_id "" None no_fields None)
                (world store_up) Hroute)
      as (_ & Hthrown).
    assert (Hrun : serve DELETE_recipe
                         (request None soup_id "" None no_fields None)
                         (world store_up)
                   = (Failed 401 (Error "Not authorized, no token"),
                      with_status 401 (world store_up))) by (by vm_compute).
    apply Hthrown in Hrun. exact Hrun.
Defined.

Lemma profile_photo_edges_witness :
  serve updateProfilePhoto
        (request (Some alice) "" "" None no_fields None) (world store_up)
  = (Failed 400 (Error "No file uploaded"), with_status 400 (world store_up))
  /\ exists st',
      serve updateProfilePhoto
            (request (Some alice) "" "" None no_fields (Some jpeg))
            (world release_down)
      = (Failed 500 (Error "Failed to upload photo to Cloudinary"), st')
      /\ users st' = users (world release_down)
      /\ log st' = [CloudUpload "recipe-app/profiles" (buffer jpeg);
                    CloudDestroy "recipe-app/profiles/a0"].
Proof.
  split.
  - by apply (profile_photo_edges
                (request (Some alice) "" "" None no_fields None)
                (world store_up)).
  - destruct (profile_photo_edges
                (request (Some alice) "" "" None no_fields (Some jpeg))
                (world release_down)) as (_ & Hrel).
    apply (Hrel jpeg alice uploaded "recipe-app/profiles/a0" "timeout");
      by vm_compute.
Defined.

Lemma addReview_appends_callers_review_witness :
  exists st' recipe' review,
    serve addReview
          (request (Some alice) soup_id "" None
                   (review_fields (7 # 2) "thin") None)
          (pantry store_up)
    = (Sent 201 (JsonRecipe (Some (plain recipe'))), st')
    /\ reviews recipe' = [bobs_review; review]
    /\ (rating review, description review, user review, replies review)
       = (7 # 2, "thin", user_id alice, [])
    /\ recipes st' !! salad_id = Some salad.
Proof.
  destruct (addReview_appends_callers_review
              (request (Some alice) soup_id "" None
                       (review_fields (7 # 2) "thin") None)
              (pantry store_up) soup alice (7 # 2) "thin")
    as (st' & recipe' & review & Hrun & _ & Hrevs & Hshape & _ & Hothers & _);
    [by vm_compute ..|].
  exists st', recipe', review. split; [exact Hrun|]. split; [exact Hrevs|].
  split; [exact Hshape|]. rewrite Hothers; by vm_compute.
Defined.

Lemma updateRecipe_bad_ingredients_witness :
  serve updateRecipe
        (request (Some alice) soup_id "" None bad_ingredients None)
        (world store_up)
  = (Failed 200 SyntaxError, with_status 200 (world store_up))
  /\ exists st',
      serve updateRecipe
            (request (Some alice) soup_id "" None bad_ingredients (Some jpeg))
            (world store_up)
      = (Failed 200 SyntaxError, st')
      /\ recipes st' = recipes (world store_up)
      /\ log st' = [CloudDestroy "recipe-app/recipes/p0";
                    CloudUpload "recipe-app/recipes" (buffer jpeg)].
Proof.
  split.
  - destruct (updateRecipe_bad_ingredients
                (request (Some alice) soup_id "" None bad_ingredients None)
                (world store_up) soup alice) as (Hplain & _);
      [by vm_compute ..|].
    by apply Hplain.
  - destruct (updateRecipe_bad_ingredients
                (request (Some alice) soup_id "" None bad_ingredients
                         (Some jpeg))
                (world store_up) soup alice) as (_ & Hphoto);
      [by vm_compute ..|].
    apply (Hphoto jpeg uploaded); by vm_compute.
Defined.

Lemma favorite_handlers_frame_witness :
  exists st',
    serve removeFavorite
          (request (Some bob) soup_id "" None no_fields None)
          (pantry store_up)
    = (Sent 200 (JsonFavorite "Recipe removed from favorites" false), st')
    /\ recipes st' = recipes (pantry store_up)
    /\ (forall key, key <> user_id bob ->
                    users st' !! key = users (pantry store_up) !! key)
    /\ exists u', users st' !! user_id bob = Some u'
                  /\ with_favorites [soup_id] u' = bob.
Proof.
  eexists. split; [by vm_compute|].
  apply (favorite_handlers_frame
           (request (Some bob) soup_id "" None no_fields None)
           (pantry store_up) _
           (Sent 200 (JsonFavorite "Recipe removed from favorites" false))
           bob bob); try by vm_compute.
  right. by vm_compute.
Defined.

Lemma by_user_route_answers_200_or_500_witness :
  serve_of (app_of (GET_user_recipes (user_id alice)))
           (incoming "bob.jwt" no_fields None) (pantry store_up)
  = (SentOf 500 (inr (JsonMessage "Server error")),
     with_status 500 (pantry store_up))
  /\ serve_of (app_of (GET_user_recipes (user_id bob)))
              (incoming "bob.jwt" no_fields None) (pantry store_up)
     = (SentOf 200 (inl [summary salad]), with_status 200 (pantry store_up)).
Proof.
  split.
  - destruct (by_user_route_answers_200_or_500 (user_id alice)
                (incoming "bob.jwt" no_fields None) (pantry store_up))
      as (_ & Hthrown).
    assert (Hrun : serve_of (GET_user_recipes (user_id alice))
                            (incoming "bob.jwt" no_fields None)
                            (pantry store_up)
                   = (FailedOf 403
                        (Error "Not authorized to view this user's recipes"),
                      with_status 403 (pantry store_up)))
      by (by vm_compute).
    apply Hthrown in Hrun. exact Hrun.
  - destruct (by_user_route_answers_200_or_500 (user_id bob)
                (incoming "bob.jwt" no_fields None) (pantry store_up))
      as (Hsent & _).
    assert (Hrun : serve_of (GET_user_recipes (user_id bob))
                            (incoming "bob.jwt" no_fields None)
                            (pantry store_up)
                   = (SentOf 200 [summary salad],
                      with_status 200 (pantry store_up)))
      by (by vm_compute).
    apply Hsent in Hrun. exact (proj2 Hrun).
Defined.
